(** * Ticket booking: fingerprint aggregation and fraud scoring

    A shallow embedding of [app.py]: the three routes [book_ticket],
    [get_analytics] and [clear_data] as functions over the contents of the
    [bookings] collection, and the properties of the aggregation they compute.

    Modelling conventions.
    - The collection is the list of its documents in insertion order (the
      order [find()] returns them in); [insert_one] appends, [delete_many({})]
      empties it.  Store failures are outside the model.
    - A JSON payload is a finite map from keys to strings.
    - A Python [dict] (and [Counter]) that is iterated is an association list
      in insertion order; a Python [set] is a [gset].
    - [datetime] values are records of their calendar fields, compared
      field by field as Python does.
    - An exception inside a route's [try] is [None] in the option monad; the
      [except] clause turns it into the 500 response.
    - [hashlib.md5] and the values the environment supplies (the clock, the
      peer address, the generated document id) are parameters.
    - A string is the sequence of the bytes of its UTF-8 encoding, so every
      string of the model can be encoded, and [s.encode()] does not raise.
      Text that has no encoding (a lone surrogate) and payload values that
      are not strings are not values of the model; on them the code leaves
      the [try] block through [except] before it reaches [insert_one].
    - The store keeps timestamps to the millisecond; the model keeps the
      value of the clock as it is. [strftime] and [isoformat] are modelled
      for the years of four digits, which [valid_datetime] describes.
    - A Python [float] is a binary64 number of the kernel, with the
      operations of the processor. *)

From Stdlib Require Import NArith ZArith Ascii String List Sorting.Sorted Permutation Lia.
From Stdlib Require Floats Uint63.
From stdpp Require Import base option list gmap strings sorting.

(** * Part I: the model *)

(** ** Python's stable sort *)

Section py_sort.
Context {A K : Type} (key : A → K) (lt : K → K → bool).

(** [list.sort] and [sorted] are stable and compare keys with [<] only.  They
    are modelled by the stable insertion sort: an element moves left past the
    elements whose key is strictly greater, and no further. *)
Fixpoint insert_by (x : A) (l : list A) : list A :=
  match l with
  | [] => [x]
  | y :: l' => if lt (key y) (key x) then y :: insert_by x l' else x :: y :: l'
  end.

Fixpoint sort_by (l : list A) : list A :=
  match l with
  | [] => []
  | x :: l' => insert_by x (sort_by l')
  end.

(** [sorted(l, key=key, reverse=reversed)].  With [reverse=True] CPython
    reverses the list, sorts it, and reverses the result, which keeps the
    original order of elements with equal keys. *)
Definition py_sorted (reversed : bool) (l : list A) : list A :=
  if reversed then reverse (sort_by (reverse l)) else sort_by l.

End py_sort.

(** [l[-n:]] *)
Definition last_n {A} (n : nat) (l : list A) : list A := drop (length l - n) l.

(** ** [datetime] *)

Record datetime := {
  year : N; month : N; day : N;
  hour : N; minute : N; second : N; microsecond : N
}.

Global Instance datetime_eq_dec : EqDecision datetime.
Proof. solve_decision. Defined.

(** Lexicographic combination of two comparisons. *)
Definition lex (c1 c2 : comparison) : comparison :=
  match c1 with Eq => c2 | Lt => Lt | Gt => Gt end.

Definition datetime_compare (a b : datetime) : comparison :=
  lex (year a ?= year b)%N (lex (month a ?= month b)%N (lex (day a ?= day b)%N
  (lex (hour a ?= hour b)%N (lex (minute a ?= minute b)%N
  (lex (second a ?= second b)%N (microsecond a ?= microsecond b)%N))))).

Definition datetime_lt (a b : datetime) : bool :=
  match datetime_compare a b with Lt => true | _ => false end.

(** [max(iterable)]: raises [ValueError] on an empty iterable. *)
Definition py_max (l : list datetime) : option datetime :=
  match l with
  | [] => None
  | x :: l' => Some (fold_left (λ m y, if datetime_lt m y then y else m) l' x)
  end.

(** ** Formatting *)

Definition digit (n : N) : ascii := ascii_of_N (48 + n mod 10).

(** [n] in decimal, zero-padded to [width] digits ([%02d], [%04d], [%06d]). *)
Fixpoint zero_padded (width : nat) (n : N) (rest : string) : string :=
  match width with
  | O => rest
  | S w => zero_padded w (n / 10) (String (digit n) rest)
  end.

(** [t.strftime('%Y-%m-%d %H:00')] *)
Definition strftime_hour (t : datetime) : string :=
  zero_padded 4 (year t) (String "-" (zero_padded 2 (month t) (String "-"
    (zero_padded 2 (day t) (String " " (zero_padded 2 (hour t) ":00")))))).

(** [t.isoformat()]: the microseconds are printed only when they are not 0. *)
Definition isoformat (t : datetime) : string :=
  zero_padded 4 (year t) (String "-" (zero_padded 2 (month t) (String "-"
    (zero_padded 2 (day t) (String "T" (zero_padded 2 (hour t) (String ":"
    (zero_padded 2 (minute t) (String ":" (zero_padded 2 (second t)
    (if (microsecond t =? 0)%N then "" else String "." (zero_padded 6 (microsecond t) "")))))))))))).

(** ** Documents of the [bookings] collection *)

Record booking := {
  _id : string;
  name : string;
  source : string;
  destination : string;
  fingerprint : string;
  fingerprint_hash : string;
  timestamp : datetime;
  ip_address : option string
}.

Global Instance booking_eq_dec : EqDecision booking.
Proof. solve_decision. Defined.

(** [f"{b['source']} → {b['destination']}"] *)
Definition route_of (b : booking) : string := source b +:+ " → " +:+ destination b.

(** ** Dictionaries in insertion order *)

(** [d[k] = d.get(k, 0) + 1]: an existing key keeps its position, a new key
    goes last. *)
Fixpoint dict_incr (k : string) (d : list (string * nat)) : list (string * nat) :=
  match d with
  | [] => [(k, 1)]
  | (k', n) :: d' =>
      if decide (k = k') then (k', S n) :: d' else (k', n) :: dict_incr k d'
  end.

(** [Counter(iterable)] *)
Definition Counter (keys : list string) : list (string * nat) :=
  fold_left (λ d k, dict_incr k d) keys [].

(** [list(set(iterable))]: the elements without repetition, in an order the
    program does not choose.  The model lists them in the order of the
    [gset]; the properties below use of this list only which elements it has
    and that none is repeated, never their order. *)
Definition list_of_set (l : list string) : list string :=
  elements (list_to_set l : gset string).

(** ** Responses *)

Inductive response (A : Type) : Type :=
  | Ok200 (body : A)
  | Error400 (error : string)
  | Error500.
Arguments Ok200 {A} body.
Arguments Error400 {A} error.
Arguments Error500 {A}.

(** The body of a successful [/book] response. *)
Record book_body := {
  booking_id : string;
  book_count : nat;
  book_suspicious : bool
}.

Record history_entry := {
  entry_name : string;
  entry_route : string;
  entry_timestamp : string;
  entry_ip : option string
}.

Record fingerprint_detail := {
  fingerprint_id : string;
  full_fingerprint : string;
  booking_count : nat;
  is_suspicious : bool;
  names_used : list string;
  routes : list string;
  last_booking : string;
  bookings : list history_entry
}.

(** [fraud_rate] is the integer [0] of the [else] branch, or the double
    [round(suspicious_bookings / total_bookings * 100, 2)], which is kept as
    its two integer operands; [fraud_rate_number] below computes it. *)
Inductive fraud_rate_value : Type :=
  | IntZero
  | RoundedPercent (suspicious total : nat).

Record summary_body := {
  total_bookings : nat;
  unique_fingerprints : nat;
  suspicious_users : nat;
  suspicious_bookings : nat;
  fraud_rate : fraud_rate_value
}.

Record timeline_point := { time : string; count : nat }.

Record analytics := {
  summary : summary_body;
  fingerprint_details : list fingerprint_detail;
  timeline : list timeline_point
}.

(** What the environment supplies to one [/book] request. *)
Record request_env := {
  utcnow : datetime;
  remote_addr : option string;
  inserted_id : string
}.

(** ** Numbers *)

(** [float(z)] for [0 <= z < 2 ** 63]; the value is exact below [2 ** 53]. *)
Definition float_of_Z (z : Z) : PrimFloat.float :=
  PrimFloat.of_uint63 (Uint63.of_Z z).

Definition float_of_nat (n : nat) : PrimFloat.float := float_of_Z (Z.of_nat n).

(** [a / b] on two [int]s: the double nearest to the quotient.  For operands
    below [2 ** 53] this is the division of the two doubles, which CPython
    computes in that case. *)
Definition true_divide (a b : nat) : PrimFloat.float :=
  PrimFloat.div (float_of_nat a) (float_of_nat b).

(** The integer nearest to [n * 2 ** e], the even one of two that are equally
    near. *)
Definition round_half_even (n e : Z) : Z :=
  if (0 <=? e)%Z then (n * 2 ^ e)%Z
  else
    let d := (2 ^ (- e))%Z in
    let q := (n / d)%Z in
    match (2 * (n mod d) ?= d)%Z with
    | Lt => q
    | Gt => (q + 1)%Z
    | Eq => if Z.even q then q else (q + 1)%Z
    end.

(** [round(x, 2)] on a [float]: the exact value of [x] is rounded to a whole
    number [k] of hundredths, half to even, and the result is the double
    nearest to [k / 100], with the sign of [x]; zeros, infinities and NaN are
    returned as they are.  [k / 100] is computed as a division of doubles,
    which is exact for [k] below [2 ** 53]. *)
Definition py_round2 (x : PrimFloat.float) : PrimFloat.float :=
  match FloatOps.Prim2SF x with
  | SpecFloat.S754_finite s m e =>
      let k := round_half_even (100 * Z.pos m) e in
      let y := PrimFloat.div (float_of_Z k) (float_of_nat 100) in
      if s then PrimFloat.opp y else y
  | _ => x
  end.

(** A number of the response: an [int] or a [float]. *)
Inductive py_number : Type :=
  | PyInt (z : Z)
  | PyFloat (x : PrimFloat.float).

(** The number that [fraud_rate] is:
    [round(suspicious_bookings / total_bookings * 100, 2)], or the [int] 0. *)
Definition fraud_rate_number (v : fraud_rate_value) : py_number :=
  match v with
  | IntZero => PyInt 0
  | RoundedPercent suspicious total =>
      PyFloat (py_round2 (PrimFloat.mul (true_divide suspicious total)
                                        (float_of_nat 100)))
  end.

(** ** The routes *)

Section routes.
(** [hashlib.md5(s.encode()).hexdigest()] *)
Variable md5_hexdigest : string → string.

(** [s[:8]] *)
Definition prefix8 (s : string) : string := String.substring 0 8 s.

Definition required_fields : list string :=
  ["name"; "source"; "destination"; "fingerprint"].

(** [POST /book] on the payload [data]: the response and the collection
    afterwards. *)
Definition book_ticket (env : request_env) (data : gmap string string)
    (store : list booking) : response book_body * list booking :=
  if negb (forallb (λ field, bool_decide (is_Some (data !! field))) required_fields)
  then (Error400 "Missing required fields", store)
  else
    match data !! "name", data !! "source", data !! "destination", data !! "fingerprint" with
    | Some n, Some s, Some d, Some fp =>
        let booking := {|
          _id := inserted_id env;
          name := n;
          source := s;
          destination := d;
          fingerprint := fp;
          fingerprint_hash := prefix8 (md5_hexdigest fp);
          timestamp := utcnow env;
          ip_address := remote_addr env
        |} in
        let store' := store ++ [booking] in
        let booking_count := length (filter (λ b, fingerprint b = fp) store') in
        let is_suspicious := 3 <? booking_count in
        (Ok200 {| booking_id := _id booking;
                  book_count := booking_count;
                  book_suspicious := is_suspicious |}, store')
    | _, _, _, _ => (Error500, store)
    end.

(** The history entry of one booking.  Every stored document has the key
    [ip_address], so [b.get('ip_address', 'N/A')] is its value. *)
Definition history_entry_of (b : booking) : history_entry := {|
  entry_name := name b;
  entry_route := route_of b;
  entry_timestamp := isoformat (timestamp b);
  entry_ip := ip_address b
|}.

(** The body of the loop over [fingerprint_counts.items()]. *)
Definition fp_detail (all_bookings : list booking) (item : string * nat)
    : option fingerprint_detail :=
  let '(fp, count) := item in
  let fp_bookings := filter (λ b, fingerprint b = fp) all_bookings in
  let names := list_of_set (name <$> fp_bookings) in
  let routes := list_of_set (route_of <$> fp_bookings) in
  last ← py_max (timestamp <$> fp_bookings);
  Some {|
    fingerprint_id := prefix8 (md5_hexdigest fp);
    full_fingerprint := fp;
    booking_count := count;
    is_suspicious := 3 <? count;
    names_used := names;
    routes := routes;
    last_booking := isoformat last;
    bookings := history_entry_of <$> py_sorted timestamp datetime_lt true fp_bookings
  |}.

(** The loop that fills [timeline_data]. *)
Definition timeline_data (all_bookings : list booking) : list (string * nat) :=
  fold_left (λ d b, dict_incr (strftime_hour (timestamp b)) d) all_bookings [].

(** The [try] block of [get_analytics]. *)
Definition analytics_of (all_bookings : list booking) : option analytics :=
  let fingerprint_counts := Counter (fingerprint <$> all_bookings) in
  let suspicious_fingerprints := filter (λ item, 3 < item.2) fingerprint_counts in
  let unique_fingerprints := length fingerprint_counts in
  let total_bookings := length all_bookings in
  let suspicious_bookings := sum_list (snd <$> suspicious_fingerprints) in
  fingerprint_details ← mapM (fp_detail all_bookings) fingerprint_counts;
  let fingerprint_details := py_sorted booking_count Nat.ltb true fingerprint_details in
  let timeline :=
    py_sorted time String.ltb false
      ((λ item, {| time := item.1; count := item.2 |}) <$> timeline_data all_bookings) in
  Some {|
    summary := {|
      total_bookings := total_bookings;
      unique_fingerprints := unique_fingerprints;
      suspicious_users := length suspicious_fingerprints;
      suspicious_bookings := suspicious_bookings;
      fraud_rate :=
        if 0 <? total_bookings
        then RoundedPercent suspicious_bookings total_bookings
        else IntZero
    |};
    fingerprint_details := fingerprint_details;
    timeline := last_n 24 timeline
  |}.

(** [GET /api/analytics] *)
Definition get_analytics (store : list booking) : response analytics :=
  match analytics_of store with
  | Some body => Ok200 body
  | None => Error500
  end.

(** [POST /api/clear]: the response and the collection afterwards. *)
Definition clear_data (store : list booking) : response unit * list booking :=
  (Ok200 (), []).

End routes.

(** ** The application: requests served one after another *)

Inductive request : Type :=
  | PostBook (env : request_env) (data : gmap string string)
  | GetAnalytics
  | PostClear.

Section app.
Variable md5_hexdigest : string → string.

(** The collection after one request; [get_analytics] only reads it. *)
Definition serve (store : list booking) (r : request) : list booking :=
  match r with
  | PostBook env data => (book_ticket md5_hexdigest env data store).2
  | GetAnalytics => store
  | PostClear => (clear_data store).2
  end.

(** The collection after a sequence of requests. *)
Definition run (reqs : list request) (store : list booking) : list booking :=
  fold_left serve reqs store.

End app.

(** * Part II: the vocabulary of the properties *)

(** The comparison [<] of a totally ordered key type. *)
Class KeyOrder {K : Type} (lt : K → K → bool) : Prop := {
  lt_irrefl : ∀ k, lt k k = false;
  lt_trans : ∀ a b c, lt a b = true → lt b c = true → lt a c = true;
  lt_total : ∀ a b, lt a b = false → lt b a = false → a = b
}.

Section orders.
Context {A K : Type} (key : A → K) (lt : K → K → bool).

(** [a] may stand before [b] in ascending order of keys. *)
Definition asc (a b : A) : Prop := lt (key b) (key a) = false.

(** [a] may stand before [b] in descending order of keys. *)
Definition desc (a b : A) : Prop := lt (key a) (key b) = false.

End orders.

(** The values [datetime.utcnow()] produces and [strftime] renders with a
    four-digit year. *)
Definition valid_datetime (t : datetime) : Prop :=
  (1000 ≤ year t ≤ 9999 ∧ 1 ≤ month t ≤ 12 ∧ 1 ≤ day t ≤ 31 ∧
   hour t ≤ 23 ∧ minute t ≤ 59 ∧ second t ≤ 59 ∧ microsecond t ≤ 999999)%N.

(** The calendar hour of a timestamp. *)
Definition hour_of (t : datetime) : N * N * N * N := (year t, month t, day t, hour t).

(** Chronological order of calendar hours. *)
Definition hour_lt (a b : N * N * N * N) : Prop :=
  let '(y1, m1, d1, h1) := a in
  let '(y2, m2, d2, h2) := b in
  (y1 < y2 ∨ y1 = y2 ∧ (m1 < m2 ∨ m1 = m2 ∧ (d1 < d2 ∨ d1 = d2 ∧ h1 < h2)))%N.

(** The key of a calendar hour, as [strftime('%Y-%m-%d %H:00')] prints it. *)
Definition hour_key (h : N * N * N * N) : string :=
  let '(y, m, d, hh) := h in
  zero_padded 4 y (String "-" (zero_padded 2 m (String "-"
    (zero_padded 2 d (String " " (zero_padded 2 hh ":00")))))).

(** [datetime_compare] read as a proposition. *)
Definition datetime_before (a b : datetime) : Prop :=
  (year a < year b ∨ year a = year b ∧
  (month a < month b ∨ month a = month b ∧
  (day a < day b ∨ day a = day b ∧
  (hour a < hour b ∨ hour a = hour b ∧
  (minute a < minute b ∨ minute a = minute b ∧
  (second a < second b ∨ second a = second b ∧
   microsecond a < microsecond b))))))%N.

Ltac lex_cases :=
  repeat match goal with
  | |- context [lex (N.compare ?x ?y) _] =>
      destruct (N.compare_spec x y); unfold lex at 1
  | |- context [N.compare ?x ?y] => destruct (N.compare_spec x y)
  end.

(** The number of occurrences of [k] in [l]. *)
Definition occurrences (k : string) (l : list string) : nat :=
  length (filter (λ y, y = k) l).

(** The distinct elements of [l] in the order of their first occurrence. *)
Fixpoint distinct (l : list string) : list string :=
  match l with
  | [] => []
  | x :: l' => x :: filter (λ y, y ≠ x) (distinct l')
  end.

(** The position of the first occurrence of [k] in [l] ([length l] when
    there is none). *)
Fixpoint first_seen (k : string) (l : list string) : nat :=
  match l with
  | [] => 0
  | x :: l' => if decide (x = k) then 0 else S (first_seen k l')
  end.

(** The events of one fingerprint, in insertion order. *)
Definition group (all_bookings : list booking) (fp : string) : list booking :=
  filter (λ b, fingerprint b = fp) all_bookings.

(** The events of one calendar hour. *)
Definition bucket (all : list booking) (h : N * N * N * N) : list booking :=
  filter (λ b, hour_of (timestamp b) = h) all.

(** The timeline point of one calendar hour. *)
Definition point_of (all : list booking) (h : N * N * N * N) : timeline_point :=
  {| time := hour_key h; count := length (bucket all h) |}.

(** The timeline before it is cut to its last 24 points. *)
Definition timeline_full (all : list booking) : list timeline_point :=
  py_sorted time String.ltb false
    ((λ item, {| time := item.1; count := item.2 |}) <$> timeline_data all).

Section vocabulary.
Variable md5_hexdigest : string → string.

(** The detail record of the group of [fp]. *)
Definition group_detail (all_bookings : list booking) (fp : string) : fingerprint_detail := {|
  fingerprint_id := prefix8 (md5_hexdigest fp);
  full_fingerprint := fp;
  booking_count := length (group all_bookings fp);
  is_suspicious := 3 <? length (group all_bookings fp);
  names_used := list_of_set (name <$> group all_bookings fp);
  routes := list_of_set (route_of <$> group all_bookings fp);
  last_booking := from_option isoformat "" (py_max (timestamp <$> group all_bookings fp));
  bookings := history_entry_of <$> py_sorted timestamp datetime_lt true (group all_bookings fp)
|}.

(** The per-fingerprint list before it is sorted. *)
Definition details_unsorted (all : list booking) : list fingerprint_detail :=
  group_detail all <$> distinct (fingerprint <$> all).

(** The document [book_ticket] stores for a complete payload. *)
Definition new_booking (env : request_env) (n s d fp : string) : booking := {|
  _id := inserted_id env;
  name := n;
  source := s;
  destination := d;
  fingerprint := fp;
  fingerprint_hash := prefix8 (md5_hexdigest fp);
  timestamp := utcnow env;
  ip_address := remote_addr env
|}.

End vocabulary.

(** The detail list of a collection: the groups sorted by count. *)
Definition details_of (md5_hexdigest : string → string) (all : list booking)
    : list fingerprint_detail :=
  py_sorted booking_count Nat.ltb true (details_unsorted md5_hexdigest all).

(** The hour keys of the events, in insertion order. *)
Definition hour_keys (all : list booking) : list string :=
  (λ b, strftime_hour (timestamp b)) <$> all.

(** Two detail records that say the same of a group: they agree on every
    field, the lists [names_used], [routes] and [bookings] up to the order of
    their elements. *)
Definition same_detail (d1 d2 : fingerprint_detail) : Prop :=
  fingerprint_id d1 = fingerprint_id d2
  ∧ full_fingerprint d1 = full_fingerprint d2
  ∧ booking_count d1 = booking_count d2
  ∧ is_suspicious d1 = is_suspicious d2
  ∧ names_used d1 ≡ₚ names_used d2
  ∧ routes d1 ≡ₚ routes d2
  ∧ last_booking d1 = last_booking d2
  ∧ bookings d1 ≡ₚ bookings d2.

(** A request whose clock, if it reads one, shows a well-formed time. *)
Definition clock_valid (r : request) : Prop :=
  match r with
  | PostBook env _ => valid_datetime (utcnow env)
  | _ => True
  end.

(** The document a request adds to the collection, if it adds one. *)
Definition document_of (md5_hexdigest : string → string) (r : request)
    : option booking :=
  match r with
  | PostBook env data =>
      n ← data !! "name"; s ← data !! "source";
      d ← data !! "destination"; fp ← data !! "fingerprint";
      Some (new_booking md5_hexdigest env n s d fp)
  | _ => None
  end.

(** The requests that follow the last [/api/clear], if there is one. *)
Fixpoint after_last_clear (reqs : list request) : option (list request) :=
  match reqs with
  | [] => None
  | r :: rest =>
      match after_last_clear rest with
      | Some later => Some later
      | None => match r with PostClear => Some rest | _ => None end
      end
  end.

(** ** Numbers and their rounding *)






(** ** Sample data *)

(** The claims hold for every digest function; the examples fix one. *)
Definition sample_digest (s : string) : string := s.

Definition at_time (y mo d h mi s : N) : datetime := {|
  year := y; month := mo; day := d; hour := h; minute := mi; second := s;
  microsecond := 0
|}.

Definition env_at (t : datetime) (oid : string) : request_env :=
  {| utcnow := t; remote_addr := Some "127.0.0.1"; inserted_id := oid |}.

Definition payload (n s d fp : string) : gmap string string :=
  list_to_map [("name", n); ("source", s); ("destination", d); ("fingerprint", fp)].

(** Twenty-six bookings of one fingerprint, one per hour from 2025-03-01
    00:30 to 2025-03-02 01:30, stored from the latest to the earliest. *)
Definition hourly_store : list booking :=
  (λ i, new_booking sample_digest
          (env_at (at_time 2025 3 (1 + N.of_nat i / 24) (N.of_nat i mod 24) 30 0) "id")
          "Ann" "Pune" "Delhi" "fp-A")
  <$> reverse (seq 0 26).

(** Four bookings of fingerprint [fp-A] and one of [fp-B], made through
    [book_ticket]. *)
Definition scenario_store : list booking :=
  let step store (req : request_env * gmap string string) :=
    (book_ticket sample_digest req.1 req.2 store).2 in
  fold_left step [
    (env_at (at_time 2025 3 1 10 0 0) "id1", payload "Ann" "Pune" "Delhi" "fp-A");
    (env_at (at_time 2025 3 1 10 20 0) "id2", payload "Bob" "Pune" "Goa" "fp-A");
    (env_at (at_time 2025 3 1 11 5 0) "id3", payload "Cid" "Agra" "Delhi" "fp-A");
    (env_at (at_time 2025 3 1 11 5 0) "id4", payload "Dev" "Agra" "Surat" "fp-A");
    (env_at (at_time 2025 3 1 12 0 0) "id5", payload "Eve" "Pune" "Delhi" "fp-B")
  ] [].

(** Bookings, a report, a clear and two more bookings, one of them without
    a destination. *)
Definition sample_requests : list request := [
  PostBook (env_at (at_time 2025 3 1 10 0 0) "id1") (payload "Ann" "Pune" "Delhi" "fp-A");
  PostBook (env_at (at_time 2025 3 1 10 20 0) "id2") (payload "Bob" "Pune" "Goa" "fp-B");
  GetAnalytics;
  PostClear;
  PostBook (env_at (at_time 2025 3 1 11 5 0) "id3")
    (list_to_map [("name", "Cid"); ("source", "Agra"); ("fingerprint", "fp-A")]);
  PostBook (env_at (at_time 2025 3 1 12 0 0) "id4") (payload "Dev" "Agra" "Surat" "fp-A")
].

(** * Part III: lemmas *)

(** ** The key orders *)

Lemma lt_asym {K} (lt : K → K → bool) `{!KeyOrder lt} a b :
  lt a b = true → lt b a = false.
Proof.
  intros Hab. destruct (lt b a) eqn:Hba; [|done].
  pose proof (lt_trans a b a Hab Hba) as Haa.
  by rewrite lt_irrefl in Haa.
Qed.

Lemma lt_neg_trans {K} (lt : K → K → bool) `{!KeyOrder lt} a b c :
  lt a b = false → lt b c = false → lt a c = false.
Proof.
  intros Hab Hbc. destruct (lt a c) eqn:Hac; [|done].
  destruct (lt b a) eqn:Hba.
  - pose proof (lt_trans b a c Hba Hac). congruence.
  - rewrite (lt_total a b Hab Hba) in Hac. congruence.
Qed.

Global Instance nat_key_order : KeyOrder Nat.ltb.
Proof.
  split.
  - intros k. apply Nat.ltb_irrefl.
  - intros a b c. rewrite !Nat.ltb_lt. lia.
  - intros a b. rewrite !Nat.ltb_ge. lia.
Qed.

Lemma datetime_lt_before a b : datetime_lt a b = true ↔ datetime_before a b.
Proof.
  unfold datetime_lt, datetime_compare, datetime_before.
  lex_cases; split; (done || lia).
Qed.

Lemma datetime_lt_false a b :
  datetime_lt a b = false ↔ ¬ datetime_before a b.
Proof. rewrite <- datetime_lt_before. by destruct (datetime_lt a b). Qed.

Global Instance datetime_key_order : KeyOrder datetime_lt.
Proof.
  split.
  - intros k. apply datetime_lt_false. unfold datetime_before. lia.
  - intros a b c. rewrite !datetime_lt_before. unfold datetime_before. lia.
  - intros a b. rewrite !datetime_lt_false. unfold datetime_before.
    intros Hab Hba. destruct a, b; simpl in *. f_equal; lia.
Qed.

Lemma ascii_compare_refl c : Ascii.compare c c = Eq.
Proof. apply N.compare_refl. Qed.

Lemma string_compare_refl s : String.compare s s = Eq.
Proof.
  induction s as [|c s IH]; simpl; [done|]. by rewrite ascii_compare_refl.
Qed.

Lemma string_compare_lt_trans s1 s2 s3 :
  String.compare s1 s2 = Lt → String.compare s2 s3 = Lt → String.compare s1 s3 = Lt.
Proof.
  revert s2 s3. induction s1 as [|c1 s1 IH]; intros [|c2 s2] [|c3 s3]; simpl; try done.
  unfold Ascii.compare.
  destruct (N.compare_spec (N_of_ascii c1) (N_of_ascii c2)) as [E12|L12|G12];
    destruct (N.compare_spec (N_of_ascii c2) (N_of_ascii c3)) as [E23|L23|G23];
    try done; intros H12 H23.
  - rewrite E12, E23, N.compare_refl. eauto.
  - rewrite E12. by apply N.compare_lt_iff in L23 as ->.
  - rewrite <- E23. by apply N.compare_lt_iff in L12 as ->.
  - assert (N_of_ascii c1 < N_of_ascii c3)%N as ->%N.compare_lt_iff by lia. done.
Qed.

Global Instance string_key_order : KeyOrder String.ltb.
Proof.
  split; unfold String.ltb.
  - intros k. by rewrite string_compare_refl.
  - intros a b c.
    destruct (String.compare a b) eqn:Hab; try done.
    destruct (String.compare b c) eqn:Hbc; try done.
    by rewrite (string_compare_lt_trans a b c).
  - intros a b. rewrite (String.compare_antisym b a).
    destruct (String.compare a b) eqn:Hab; try done.
    intros _ _. by apply String.compare_eq_iff.
Qed.

(** ** The stable sort *)

Section py_sort_facts.
Context {A K : Type} (key : A → K) (lt : K → K → bool).

Lemma insert_by_perm x l : insert_by key lt x l ≡ₚ x :: l.
Proof.
  induction l as [|y l IH]; simpl; [done|].
  destruct (lt (key y) (key x)); [|done].
  rewrite IH. apply Permutation_swap.
Qed.

Lemma sort_by_perm l : sort_by key lt l ≡ₚ l.
Proof.
  induction l as [|x l IH]; simpl; [done|].
  by rewrite insert_by_perm, IH.
Qed.

Lemma py_sorted_perm reversed l : py_sorted key lt reversed l ≡ₚ l.
Proof.
  destruct reversed; simpl; [|apply sort_by_perm].
  by rewrite reverse_Permutation, sort_by_perm, reverse_Permutation.
Qed.

Lemma py_sorted_length reversed l : length (py_sorted key lt reversed l) = length l.
Proof. apply Permutation_length, py_sorted_perm. Qed.

Lemma py_sorted_elem_of reversed l x : x ∈ py_sorted key lt reversed l ↔ x ∈ l.
Proof. by rewrite py_sorted_perm. Qed.

Context `{!KeyOrder lt}.

Lemma insert_by_sorted x l :
  StronglySorted (asc key lt) l → StronglySorted (asc key lt) (insert_by key lt x l).
Proof.
  induction 1 as [|y l Hl IH Hy]; simpl.
  - repeat constructor.
  - destruct (lt (key y) (key x)) eqn:Hyx.
    + constructor; [done|].
      rewrite insert_by_perm. constructor; [|done].
      unfold asc. by apply lt_asym.
    + constructor; [by constructor|].
      constructor; [done|].
      eapply Forall_impl; [exact Hy|]. unfold asc. intros z Hz.
      by apply (lt_neg_trans lt _ (key y)).
Qed.

Lemma sort_by_sorted l : StronglySorted (asc key lt) (sort_by key lt l).
Proof.
  induction l; simpl; [constructor|by apply insert_by_sorted].
Qed.

Lemma StronglySorted_reverse (R : A → A → Prop) l :
  StronglySorted R l → StronglySorted (flip R) (reverse l).
Proof.
  induction 1 as [|x l Hl IH Hx]; [constructor|].
  rewrite reverse_cons.
  apply StronglySorted_app_2; [|done|repeat constructor].
  intros a b Ha Hb. apply list_elem_of_singleton in Hb as ->.
  rewrite Forall_forall in Hx. apply Hx. by apply elem_of_reverse.
Qed.

Lemma py_sorted_asc l : StronglySorted (asc key lt) (py_sorted key lt false l).
Proof. apply sort_by_sorted. Qed.

Lemma py_sorted_desc l : StronglySorted (desc key lt) (py_sorted key lt true l).
Proof. apply (StronglySorted_reverse (asc key lt)), sort_by_sorted. Qed.

Context `{!EqDecision K}.

(** Stability: the elements of any one key keep their relative order. *)
Lemma insert_by_stable k x l :
  filter (λ a, key a = k) (insert_by key lt x l) = filter (λ a, key a = k) (x :: l).
Proof.
  induction l as [|y l IH]; simpl; [done|].
  destruct (lt (key y) (key x)) eqn:Hyx; [|done].
  rewrite !filter_cons, IH, !filter_cons.
  destruct (decide (key y = k)) as [Hy|], (decide (key x = k)) as [Hx|]; try done.
  rewrite Hy, Hx, lt_irrefl in Hyx. done.
Qed.

Lemma sort_by_stable k l :
  filter (λ a, key a = k) (sort_by key lt l) = filter (λ a, key a = k) l.
Proof.
  induction l as [|x l IH]; simpl; [done|].
  by rewrite insert_by_stable, !filter_cons, IH.
Qed.

Lemma py_sorted_stable reversed k l :
  filter (λ a, key a = k) (py_sorted key lt reversed l) = filter (λ a, key a = k) l.
Proof.
  destruct reversed; simpl; [|apply sort_by_stable].
  by rewrite filter_reverse, sort_by_stable, filter_reverse, reverse_involutive.
Qed.
End py_sort_facts.

(** ** Sets *)

Lemma list_of_set_NoDup l : NoDup (list_of_set l).
Proof. unfold list_of_set. apply NoDup_elements. Qed.

Lemma list_of_set_elem_of x l : x ∈ list_of_set l ↔ x ∈ l.
Proof. unfold list_of_set. by rewrite elem_of_elements, elem_of_list_to_set. Qed.

(** ** Counters *)

Lemma occurrences_snoc k l x :
  occurrences k (l ++ [x]) = occurrences k l + (if decide (x = k) then 1 else 0).
Proof.
  unfold occurrences. rewrite filter_app, length_app, filter_cons, filter_nil.
  by destruct (decide (x = k)).
Qed.

Lemma occurrences_0 k l : k ∉ l → occurrences k l = 0.
Proof.
  intros Hk. unfold occurrences.
  induction l as [|x l IH]; [done|].
  rewrite filter_cons. apply not_elem_of_cons in Hk as [Hne Hk].
  destruct (decide (x = k)); [congruence|auto].
Qed.

Lemma distinct_elem_of k l : k ∈ distinct l ↔ k ∈ l.
Proof.
  induction l as [|x l IH]; simpl; [done|].
  rewrite !elem_of_cons, list_elem_of_filter, IH.
  destruct (decide (k = x)); split; intros; intuition congruence.
Qed.

Lemma distinct_NoDup l : NoDup (distinct l).
Proof.
  induction l as [|x l IH]; simpl; constructor.
  - rewrite list_elem_of_filter. by intros [Hne _].
  - by apply NoDup_filter.
Qed.

Lemma distinct_snoc l x :
  distinct (l ++ [x]) = if decide (x ∈ l) then distinct l else distinct l ++ [x].
Proof.
  induction l as [|a l IH]; simpl.
  - destruct (decide (x ∈ [])) as [H|]; [by apply elem_of_nil in H|done].
  - rewrite IH. destruct (decide (x ∈ l)) as [Hx|Hx].
    + rewrite decide_True by (by right). done.
    + rewrite filter_app, filter_cons, filter_nil.
      destruct (decide (x = a)) as [->|Hne].
      * rewrite decide_False by (by intros Hne).
        rewrite decide_True by (by left). by rewrite app_nil_r.
      * rewrite decide_True by done.
        rewrite decide_False; [done|].
        rewrite elem_of_cons. by intros [|].
Qed.

Lemma distinct_order a b l :
  [a; b] `sublist_of` distinct l → first_seen a l < first_seen b l.
Proof.
  induction l as [|x l IH]; simpl; intros Hsub.
  - by apply sublist_nil_r in Hsub.
  - apply sublist_cons_r in Hsub as [Hsub|(l' & [= <- <-] & Hsub)].
    + assert ([a; b] `sublist_of` distinct l) as Hl
        by (etransitivity; [exact Hsub|apply sublist_filter]).
      assert (a ∈ filter (λ y, y ≠ x) (distinct l)) as Ha
        by (eapply elem_of_sublist; [by left|exact Hsub]).
      assert (b ∈ filter (λ y, y ≠ x) (distinct l)) as Hb
        by (eapply elem_of_sublist; [by right; left|exact Hsub]).
      apply list_elem_of_filter in Ha as [Ha _], Hb as [Hb _].
      rewrite !decide_False by done. apply IH in Hl. lia.
    + assert (b ∈ filter (λ y, y ≠ a) (distinct l)) as Hb
        by (eapply elem_of_sublist; [by left|exact Hsub]).
      apply list_elem_of_filter in Hb as [Hb _].
      rewrite decide_True by done. rewrite decide_False by done. lia.
Qed.

Lemma dict_incr_fresh k d : k ∉ d.*1 → dict_incr k d = d ++ [(k, 1)].
Proof.
  induction d as [|[k' n] d IH]; simpl; [done|].
  intros [Hne Hk]%not_elem_of_cons.
  rewrite decide_False by done. by rewrite IH.
Qed.

Lemma dict_incr_present k (g : string → nat) ks :
  NoDup ks → k ∈ ks →
  dict_incr k ((λ x, (x, g x)) <$> ks)
  = (λ x, (x, if decide (x = k) then S (g x) else g x)) <$> ks.
Proof.
  induction ks as [|x ks IH]; simpl; intros Hnd Hk; [by apply elem_of_nil in Hk|].
  apply NoDup_cons in Hnd as [Hx Hnd].
  destruct (decide (k = x)) as [->|Hne].
  - rewrite decide_True by done. f_equal.
    apply list_fmap_ext. intros i y Hy.
    rewrite decide_False; [done|].
    intros ->. apply Hx. by eapply list_elem_of_lookup_2.
  - rewrite decide_False by done. f_equal. apply IH; [done|].
    apply elem_of_cons in Hk as [|]; done.
Qed.

Lemma Counter_snoc l x : Counter (l ++ [x]) = dict_incr x (Counter l).
Proof. unfold Counter. by rewrite fold_left_app. Qed.

(** The closed form of a counter: the distinct keys in the order they were
    first seen, each with its number of occurrences. *)
Lemma Counter_distinct l :
  Counter l = (λ k, (k, occurrences k l)) <$> distinct l.
Proof.
  induction l as [|x l IH] using rev_ind; [done|].
  rewrite Counter_snoc, IH, distinct_snoc.
  destruct (decide (x ∈ l)) as [Hx|Hx].
  - rewrite dict_incr_present; [|apply distinct_NoDup|by apply distinct_elem_of].
    apply list_fmap_ext. intros i k _. rewrite occurrences_snoc.
    destruct (decide (k = x)) as [->|];
      [rewrite decide_True by done|rewrite decide_False by done]; f_equal; lia.
  - rewrite dict_incr_fresh.
    + rewrite fmap_app. simpl. rewrite occurrences_snoc, decide_True by done.
      rewrite (occurrences_0 x l) by done. f_equal.
      apply list_fmap_ext. intros i k Hk. rewrite occurrences_snoc.
      rewrite decide_False; [f_equal; lia|].
      intros ->. apply Hx. apply distinct_elem_of. by eapply list_elem_of_lookup_2.
    + rewrite <- list_fmap_compose. simpl.
      rewrite list_fmap_id. by rewrite distinct_elem_of.
Qed.

Lemma Counter_keys l : (Counter l).*1 = distinct l.
Proof.
  rewrite Counter_distinct, <- list_fmap_compose. apply list_fmap_id.
Qed.

Lemma dict_incr_total k d : sum_list (dict_incr k d).*2 = S (sum_list d.*2).
Proof.
  induction d as [|[k' n] d IH]; [done|]. cbn [dict_incr].
  destruct (decide (k = k')); rewrite !fmap_cons; [done|].
  change (sum_list (?x :: ?l)) with (x + sum_list l). rewrite IH. simpl. lia.
Qed.

(** The counts of a counter add up to the number of counted elements. *)
Lemma Counter_total l : sum_list (Counter l).*2 = length l.
Proof.
  induction l as [|x l IH] using rev_ind; [done|].
  rewrite Counter_snoc, dict_incr_total, IH, length_app. simpl. lia.
Qed.

(** ** Timestamps: maximum and formatting *)

Lemma py_max_fold x l m :
  fold_left (λ m y, if datetime_lt m y then y else m) l x = m →
  m ∈ x :: l ∧ ∀ y, y ∈ x :: l → datetime_lt m y = false.
Proof.
  revert x. induction l as [|y l IH]; simpl; intros x Hm.
  - subst m. split; [by left|].
    intros y ->%list_elem_of_singleton. apply lt_irrefl.
  - apply IH in Hm as [Hin Hmax]. split.
    + destruct (datetime_lt x y); apply elem_of_cons in Hin as [->|Hin];
        rewrite !elem_of_cons; auto.
    + intros z Hz.
      destruct (datetime_lt x y) eqn:Hxy.
      * apply elem_of_cons in Hz as [->|Hz]; [|by apply Hmax].
        destruct (datetime_lt m x) eqn:Hmx; [|done].
        rewrite <- (Hmax y) by (by left). symmetry. by apply (lt_trans m x y).
      * apply elem_of_cons in Hz as [->|Hz].
        { apply Hmax. by left. }
        apply elem_of_cons in Hz as [->|Hz].
        { apply (lt_neg_trans datetime_lt m x y); [|done]. apply Hmax. by left. }
        apply Hmax. by right.
Qed.

Lemma py_max_spec l m :
  py_max l = Some m → m ∈ l ∧ ∀ y, y ∈ l → datetime_lt m y = false.
Proof.
  destruct l as [|x l]; simpl; [done|].
  intros [= Hm]. by apply py_max_fold.
Qed.

Lemma py_max_is_Some l : l ≠ [] → is_Some (py_max l).
Proof. destruct l; [done|]. simpl. eauto. Qed.

Lemma digit_compare a b :
  Ascii.compare (digit a) (digit b) = (a mod 10 ?= b mod 10)%N.
Proof.
  unfold digit, Ascii.compare.
  pose proof (N.mod_lt a 10 ltac:(lia)). pose proof (N.mod_lt b 10 ltac:(lia)).
  rewrite !N_ascii_embedding by lia.
  destruct (N.compare_spec (a mod 10) (b mod 10)) as [->| |].
  - apply N.compare_refl.
  - apply N.compare_lt_iff. lia.
  - apply N.compare_gt_iff. lia.
Qed.

Lemma lex_digits a b c :
  lex (a / 10 ?= b / 10)%N (lex (a mod 10 ?= b mod 10)%N c) = lex (a ?= b)%N c.
Proof.
  unfold lex. destruct (N.compare_spec a b) as [->| |].
  { by rewrite !N.compare_refl. }
  all: pose proof (N.div_mod a 10 ltac:(lia)); pose proof (N.div_mod b 10 ltac:(lia));
    pose proof (N.mod_lt a 10 ltac:(lia)); pose proof (N.mod_lt b 10 ltac:(lia));
    destruct (N.compare_spec (a / 10) (b / 10)),
      (N.compare_spec (a mod 10) (b mod 10)); try done; exfalso;
    generalize dependent (a / 10)%N; generalize dependent (b / 10)%N;
    generalize dependent (a mod 10)%N; generalize dependent (b mod 10)%N;
    intros; lia.
Qed.

Lemma string_compare_cons c r1 r2 :
  String.compare (String c r1) (String c r2) = String.compare r1 r2.
Proof. simpl. by rewrite ascii_compare_refl. Qed.

(** Zero-padded numbers of one width compare as the numbers do. *)
Lemma zero_padded_compare w a b r1 r2 :
  (a < 10 ^ N.of_nat w)%N → (b < 10 ^ N.of_nat w)%N →
  String.compare (zero_padded w a r1) (zero_padded w b r2)
  = lex (a ?= b)%N (String.compare r1 r2).
Proof.
  revert a b r1 r2. induction w as [|w IH]; intros a b r1 r2 Ha Hb.
  - simpl in *. assert (a = 0%N) as -> by lia. assert (b = 0%N) as -> by lia. done.
  - rewrite Nat2N.inj_succ, N.pow_succ_r' in Ha, Hb.
    cbn [zero_padded]. rewrite IH.
    + cbn [String.compare]. rewrite digit_compare. apply (lex_digits a b).
    + apply N.Div0.div_lt_upper_bound. lia.
    + apply N.Div0.div_lt_upper_bound. lia.
Qed.

Lemma strftime_hour_compare a b :
  valid_datetime a → valid_datetime b →
  String.compare (strftime_hour a) (strftime_hour b)
  = lex (year a ?= year b)%N (lex (month a ?= month b)%N
      (lex (day a ?= day b)%N (hour a ?= hour b)%N)).
Proof.
  unfold valid_datetime, strftime_hour. intros Ha Hb.
  repeat (rewrite zero_padded_compare by (simpl; lia); rewrite ?string_compare_cons).
  rewrite string_compare_refl. unfold lex. by destruct (hour a ?= hour b)%N.
Qed.

(** The hour keys of two timestamps are ordered as strings exactly when the
    hours are ordered in time. *)
Lemma strftime_hour_lt a b :
  valid_datetime a → valid_datetime b →
  String.ltb (strftime_hour a) (strftime_hour b) = true
  ↔ hour_lt (hour_of a) (hour_of b).
Proof.
  intros Ha Hb. unfold String.ltb. rewrite strftime_hour_compare by done.
  unfold hour_of, hour_lt. lex_cases; split; (done || lia).
Qed.

(** Two timestamps have the same hour key exactly when they lie in the same
    calendar hour. *)
Lemma strftime_hour_eq a b :
  valid_datetime a → valid_datetime b →
  strftime_hour a = strftime_hour b ↔ hour_of a = hour_of b.
Proof.
  intros Ha Hb. split.
  - intros Heq. pose proof (strftime_hour_compare a b Ha Hb) as Hc.
    rewrite Heq, string_compare_refl in Hc. revert Hc.
    unfold hour_of. lex_cases; intros; (done || congruence).
  - unfold hour_of, strftime_hour. by intros [= -> -> -> ->].
Qed.

(** ** Binary64 arithmetic: rounding and its bounds *)

(** The kernel's floats are specified by the functions of [SpecFloat]: an
    operation computes a mantissa, an exponent and the place of the exact
    result between two mantissas, and [binary_round_aux] rounds that to the
    format.  The lemmas follow an exact rational [a / b] through the shifts
    of the rounding and show that rounding does not pass an integer bound. *)

Section float_facts.
Import SpecFloat.
Local Open Scope Z_scope.

Local Abbreviation fexp := (SpecFloat.fexp FloatOps.prec FloatOps.emax).































End float_facts.

(** ** The analytics report in closed form *)

Section analytics_facts.
Variable md5_hexdigest : string → string.

Lemma occurrences_fingerprint all fp :
  occurrences fp (fingerprint <$> all) = length (group all fp).
Proof.
  unfold occurrences, group. induction all as [|b all IH]; [done|].
  rewrite fmap_cons, !filter_cons.
  destruct (decide (fingerprint b = fp)); simpl; by rewrite IH.
Qed.

Lemma group_nonempty all fp : fp ∈ fingerprint <$> all → group all fp ≠ [].
Proof.
  intros (b & -> & Hb)%list_elem_of_fmap Hnil.
  assert (b ∈ group all (fingerprint b)) as Hin by by apply list_elem_of_filter.
  rewrite Hnil in Hin. by apply elem_of_nil in Hin.
Qed.

Lemma fp_detail_group all fp :
  fp ∈ fingerprint <$> all →
  fp_detail md5_hexdigest all (fp, occurrences fp (fingerprint <$> all))
  = Some (group_detail md5_hexdigest all fp).
Proof.
  intros Hfp. unfold fp_detail, group_detail. fold (group all fp).
  destruct (py_max_is_Some (timestamp <$> group all fp)) as [m Hm].
  { intros Hnil%fmap_nil_inv. by apply (group_nonempty all fp). }
  rewrite Hm. simpl. by rewrite occurrences_fingerprint.
Qed.

Lemma details_closed all :
  mapM (fp_detail md5_hexdigest all) (Counter (fingerprint <$> all))
  = Some (group_detail md5_hexdigest all <$> distinct (fingerprint <$> all)).
Proof.
  apply mapM_Some_2. rewrite Counter_distinct.
  apply Forall2_fmap, Forall_Forall2_diag, Forall_forall.
  intros fp Hfp. rewrite distinct_elem_of in Hfp. by apply fp_detail_group.
Qed.

Lemma analytics_of_closed all :
  ∃ sm, analytics_of md5_hexdigest all = Some {|
    summary := sm;
    fingerprint_details := py_sorted booking_count Nat.ltb true (details_unsorted md5_hexdigest all);
    timeline := last_n 24 (timeline_full all)
  |} ∧ total_bookings sm = length all.
Proof.
  unfold analytics_of. rewrite details_closed. simpl. eauto.
Qed.

Lemma get_analytics_closed all :
  ∃ body, get_analytics md5_hexdigest all = Ok200 body
  ∧ fingerprint_details body = py_sorted booking_count Nat.ltb true (details_unsorted md5_hexdigest all)
  ∧ timeline body = last_n 24 (timeline_full all)
  ∧ total_bookings (summary body) = length all.
Proof.
  destruct (analytics_of_closed all) as (sm & Hsm & Htotal).
  unfold get_analytics. rewrite Hsm. eauto.
Qed.

Lemma elem_of_details all d :
  d ∈ py_sorted booking_count Nat.ltb true (details_unsorted md5_hexdigest all)
  ↔ ∃ fp, fp ∈ fingerprint <$> all ∧ d = group_detail md5_hexdigest all fp.
Proof.
  rewrite py_sorted_elem_of. unfold details_unsorted. rewrite list_elem_of_fmap.
  split; intros (fp & ? & ?); exists fp; by rewrite ?distinct_elem_of in *.
Qed.

End analytics_facts.

(** ** Auxiliary facts on lists *)

Lemma StronglySorted_weaken {A} (R R' : A → A → Prop) l :
  (∀ a b, a ∈ l → b ∈ l → R a b → R' a b) →
  StronglySorted R l → StronglySorted R' l.
Proof.
  intros HR Hl. induction Hl as [|x l Hl IH Hx]; constructor.
  - apply IH. intros a b Ha Hb. apply HR; by right.
  - rewrite Forall_forall in Hx |- *. intros y Hy.
    apply HR; [by left|by right|by apply Hx].
Qed.

Lemma sublist_filter_mono {A} (P : A → Prop) `{!∀ a, Decision (P a)} l1 l2 :
  l1 `sublist_of` l2 → filter P l1 `sublist_of` filter P l2.
Proof.
  induction 1 as [|x l1 l2 Hl IH|x l1 l2 Hl IH]; [done| |].
  - rewrite !filter_cons. destruct (decide (P x)); [by constructor|done].
  - rewrite filter_cons. destruct (decide (P x)); [by constructor|done].
Qed.

Lemma sublist_of_lookups {A} (l : list A) i j a b :
  i < j → l !! i = Some a → l !! j = Some b → [a; b] `sublist_of` l.
Proof.
  intros Hij Ha Hb. apply sublist_cons_l.
  exists (take i l), (drop (S i) l). split.
  - symmetry. by apply take_drop_middle.
  - apply singleton_sublist_l, list_elem_of_lookup. exists (j - S i).
    rewrite lookup_drop. by replace (S i + (j - S i)) with j by lia.
Qed.

Lemma join_fmap_Permutation {A B} (f g : A → list B) ks :
  (∀ k, k ∈ ks → f k ≡ₚ g k) → mjoin (f <$> ks) ≡ₚ mjoin (g <$> ks).
Proof.
  induction ks as [|k ks IH]; intros Hfg; [done|].
  rewrite !fmap_cons. simpl. rewrite IH.
  - rewrite (Hfg k); [done|by left].
  - intros k' Hk'. apply Hfg. by right.
Qed.

(** The first element of a list sorted by descending timestamp carries the
    maximal timestamp. *)
Lemma py_max_sorted_head (l : list booking) :
  l ≠ [] →
  ∃ e rest, py_sorted timestamp datetime_lt true l = e :: rest
    ∧ py_max (timestamp <$> l) = Some (timestamp e).
Proof.
  intros Hl.
  pose proof (py_sorted_perm timestamp datetime_lt true l) as Hperm.
  pose proof (py_sorted_desc timestamp datetime_lt l) as Hsorted.
  destruct (py_sorted timestamp datetime_lt true l) as [|e rest].
  { symmetry in Hperm. by apply Permutation_nil_r in Hperm. }
  exists e, rest. split; [done|].
  destruct (py_max_is_Some (timestamp <$> l)) as [m Hm].
  { by intros ?%fmap_nil_inv. }
  rewrite Hm. f_equal.
  apply py_max_spec in Hm as [Hin Hmax].
  apply (lt_total (lt:=datetime_lt)).
  - apply Hmax, list_elem_of_fmap_2. rewrite <- Hperm. by left.
  - apply list_elem_of_fmap in Hin as (z & -> & Hz).
    rewrite <- Hperm in Hz. apply elem_of_cons in Hz as [->|Hz]; [apply lt_irrefl|].
    apply StronglySorted_inv in Hsorted as [_ Hall].
    rewrite Forall_forall in Hall. by apply Hall.
Qed.

(** The events of the groups of distinct fingerprints are the events whose
    fingerprint is one of them. *)
Lemma join_groups all ks :
  NoDup ks →
  mjoin (group all <$> ks) ≡ₚ filter (λ b, fingerprint b ∈ ks) all.
Proof.
  induction 1 as [|k ks Hk Hnd IH]; simpl.
  - induction all as [|b all IHall]; [done|].
    rewrite filter_cons. destruct (decide (fingerprint b ∈ [])) as [H|]; [|done].
    by apply elem_of_nil in H.
  - rewrite IH. clear IH. unfold group.
    induction all as [|b all IHall]; [done|].
    rewrite !filter_cons.
    destruct (decide (fingerprint b = k)) as [Heq|Hne].
    + rewrite (decide_True (P:=fingerprint b ∈ k :: ks)) by (rewrite Heq; by left).
      rewrite (decide_False (P:=fingerprint b ∈ ks)) by (by rewrite Heq).
      simpl. by rewrite IHall.
    + destruct (decide (fingerprint b ∈ ks)) as [Hin|Hin].
      * rewrite (decide_True (P:=fingerprint b ∈ k :: ks)) by (by right).
        rewrite <- Permutation_middle. by rewrite IHall.
      * rewrite (decide_False (P:=fingerprint b ∈ k :: ks)); [done|].
        rewrite elem_of_cons. intros [|]; done.
Qed.

Lemma filter_all {A} (P : A → Prop) `{!∀ a, Decision (P a)} l :
  Forall P l → filter P l = l.
Proof.
  induction 1 as [|x l Hx Hl IH]; [done|].
  by rewrite filter_cons, decide_True, IH.
Qed.

(** Grouping is a partition of the events. *)
Lemma groups_partition all :
  mjoin (group all <$> distinct (fingerprint <$> all)) ≡ₚ all.
Proof.
  rewrite join_groups by apply distinct_NoDup.
  rewrite filter_all; [done|].
  apply Forall_forall. intros b Hb.
  by apply distinct_elem_of, list_elem_of_fmap_2.
Qed.

(** ** [book_ticket] *)

Lemma required_fields_present (data : gmap string string) :
  forallb (λ field, bool_decide (is_Some (data !! field))) required_fields = true
  ↔ ∀ field, field ∈ required_fields → is_Some (data !! field).
Proof.
  rewrite forallb_forall. split.
  - intros H field Hf. apply list_elem_of_In in Hf.
    by apply H, bool_decide_eq_true in Hf.
  - intros H field Hf. apply bool_decide_eq_true, H. by apply list_elem_of_In.
Qed.

(** A payload either has the four keys or lacks one of them. *)
Lemma payload_cases (data : gmap string string) :
  (∃ n s d fp, data !! "name" = Some n ∧ data !! "source" = Some s
     ∧ data !! "destination" = Some d ∧ data !! "fingerprint" = Some fp)
  ∨ (∃ field, field ∈ required_fields ∧ data !! field = None).
Proof.
  unfold required_fields.
  destruct (data !! "name") as [n|] eqn:Hn; [|right; exists "name"; set_solver].
  destruct (data !! "source") as [s|] eqn:Hs; [|right; exists "source"; set_solver].
  destruct (data !! "destination") as [d|] eqn:Hd;
    [|right; exists "destination"; set_solver].
  destruct (data !! "fingerprint") as [fp|] eqn:Hfp;
    [|right; exists "fingerprint"; set_solver].
  left. by exists n, s, d, fp.
Qed.

Section book_ticket_facts.
Variable md5_hexdigest : string → string.

Lemma book_ticket_complete env (data : gmap string string) store n s d fp :
  data !! "name" = Some n → data !! "source" = Some s →
  data !! "destination" = Some d → data !! "fingerprint" = Some fp →
  book_ticket md5_hexdigest env data store
  = (Ok200 {| booking_id := inserted_id env;
              book_count := length (group (store ++ [new_booking md5_hexdigest env n s d fp]) fp);
              book_suspicious := 3 <? length (group (store ++ [new_booking md5_hexdigest env n s d fp]) fp) |},
     store ++ [new_booking md5_hexdigest env n s d fp]).
Proof.
  intros Hn Hs Hd Hfp. unfold book_ticket.
  assert (forallb (λ field, bool_decide (is_Some (data !! field))) required_fields = true)
    as ->.
  { simpl. rewrite Hn, Hs, Hd, Hfp. done. }
  simpl. rewrite Hn, Hs, Hd, Hfp. done.
Qed.

Lemma book_ticket_incomplete env (data : gmap string string) store field :
  field ∈ required_fields → data !! field = None →
  book_ticket md5_hexdigest env data store = (Error400 "Missing required fields", store).
Proof.
  intros Hf Hnone. unfold book_ticket.
  destruct (forallb _ required_fields) eqn:Hall; [|done].
  pose proof (proj1 (required_fields_present data) Hall field Hf) as Hsome.
  rewrite Hnone in Hsome. by destruct Hsome.
Qed.

End book_ticket_facts.

(** ** The hourly timeline *)

Lemma strftime_hour_key t : strftime_hour t = hour_key (hour_of t).
Proof. done. Qed.

Lemma filter_ext_in {A} (P Q : A → Prop)
    `{!∀ a, Decision (P a)} `{!∀ a, Decision (Q a)} (l : list A) :
  (∀ x, x ∈ l → P x ↔ Q x) → filter P l = filter Q l.
Proof.
  induction l as [|x l IH]; intros HPQ; [done|].
  rewrite !filter_cons, IH by (intros y Hy; apply HPQ; by right).
  destruct (decide (P x)) as [HP|HP], (decide (Q x)) as [HQ|HQ]; try done.
  - destruct HQ. apply HPQ; [by left|done].
  - destruct HP. apply HPQ; [by left|done].
Qed.

Lemma occurrences_fmap {A} (f : A → string) k (l : list A) :
  occurrences k (f <$> l) = length (filter (λ x, f x = k) l).
Proof.
  unfold occurrences. induction l as [|x l IH]; [done|].
  rewrite fmap_cons, !filter_cons.
  destruct (decide (f x = k)); simpl; by rewrite IH.
Qed.

Lemma fmap_preimage {A B} (f : A → B) (P : A → Prop) (l : list B) :
  Forall (λ y, ∃ x, y = f x ∧ P x) l → ∃ xs, l = f <$> xs ∧ Forall P xs.
Proof.
  induction 1 as [|y l (x & -> & Hx) Hl (xs & -> & Hxs)].
  - by exists [].
  - exists (x :: xs). split; [done|by constructor].
Qed.

Lemma StronglySorted_fmap_inv {A B} (f : A → B) (R : B → B → Prop) (l : list A) :
  StronglySorted R (f <$> l) → StronglySorted (λ x y, R (f x) (f y)) l.
Proof.
  induction l as [|x l IH]; [constructor|].
  rewrite fmap_cons. intros [Hl Hx]%StronglySorted_inv.
  constructor; [by apply IH|].
  by rewrite Forall_fmap in Hx.
Qed.

(** A list sorted by keys that are pairwise different is strictly sorted. *)
Lemma StronglySorted_strict {A K} (key : A → K) (lt : K → K → bool)
    `{!KeyOrder lt} (l : list A) :
  NoDup (key <$> l) → StronglySorted (asc key lt) l →
  StronglySorted (λ a b, lt (key a) (key b) = true) l.
Proof.
  induction l as [|x l IH]; [constructor|].
  rewrite fmap_cons. intros [Hx Hnd]%NoDup_cons [Hl Hall]%StronglySorted_inv.
  constructor; [by apply IH|].
  rewrite Forall_forall in Hall |- *. intros y Hy.
  destruct (lt (key x) (key y)) eqn:Hxy; [done|].
  destruct Hx. rewrite (lt_total (key x) (key y) Hxy (Hall y Hy)).
  by apply list_elem_of_fmap_2.
Qed.

Lemma timeline_data_Counter all :
  timeline_data all = Counter ((λ b, strftime_hour (timestamp b)) <$> all).
Proof.
  unfold timeline_data, Counter. generalize (@nil (string * nat)).
  induction all as [|b all IH]; intros d; [done|]. simpl. apply IH.
Qed.

Section timeline_facts.
Variable all : list booking.
Hypothesis all_valid : Forall (λ b, valid_datetime (timestamp b)) all.

Lemma valid_timestamp b : b ∈ all → valid_datetime (timestamp b).
Proof. rewrite Forall_forall in all_valid. apply all_valid. Qed.

(** The hour key determines the bucket. *)
Lemma bucket_of_key b :
  b ∈ all →
  occurrences (strftime_hour (timestamp b)) ((λ b, strftime_hour (timestamp b)) <$> all)
  = length (bucket all (hour_of (timestamp b))).
Proof.
  intros Hb. rewrite occurrences_fmap. unfold bucket. f_equal.
  apply filter_ext_in. intros b' Hb'.
  apply strftime_hour_eq; by apply valid_timestamp.
Qed.

Lemma timeline_full_points p :
  p ∈ timeline_full all ↔ ∃ b, b ∈ all ∧ p = point_of all (hour_of (timestamp b)).
Proof.
  unfold timeline_full. rewrite py_sorted_elem_of, timeline_data_Counter.
  rewrite Counter_distinct, <- list_fmap_compose, list_elem_of_fmap.
  unfold compose. simpl. split.
  - intros (k & -> & Hk). apply distinct_elem_of, list_elem_of_fmap in Hk as (b & -> & Hb).
    exists b. split; [done|]. unfold point_of.
    by rewrite bucket_of_key, strftime_hour_key.
  - intros (b & Hb & ->). exists (strftime_hour (timestamp b)). split.
    + unfold point_of. by rewrite bucket_of_key, strftime_hour_key.
    + apply distinct_elem_of. by apply (list_elem_of_fmap_2 (λ b, strftime_hour (timestamp b))).
Qed.

Lemma timeline_full_sorted :
  StronglySorted (λ p q, String.ltb (time p) (time q) = true) (timeline_full all).
Proof.
  apply StronglySorted_strict; [apply _| |apply (py_sorted_asc time String.ltb)].
  unfold timeline_full. rewrite py_sorted_perm, timeline_data_Counter.
  rewrite <- list_fmap_compose. unfold compose. simpl.
  rewrite Counter_keys. apply distinct_NoDup.
Qed.

(** Points of hours that hold events are ordered as their hours are. *)
Lemma point_lt b1 b2 :
  b1 ∈ all → b2 ∈ all →
  String.ltb (time (point_of all (hour_of (timestamp b1))))
             (time (point_of all (hour_of (timestamp b2)))) = true →
  hour_lt (hour_of (timestamp b1)) (hour_of (timestamp b2)).
Proof.
  intros H1 H2. cbn [point_of time]. rewrite <- !strftime_hour_key.
  apply strftime_hour_lt; by apply valid_timestamp.
Qed.

Lemma point_inj b1 b2 :
  b1 ∈ all → b2 ∈ all →
  point_of all (hour_of (timestamp b1)) = point_of all (hour_of (timestamp b2)) →
  hour_of (timestamp b1) = hour_of (timestamp b2).
Proof.
  intros H1 H2 Hk. apply (f_equal time) in Hk. cbn [point_of time] in Hk.
  rewrite <- !strftime_hour_key in Hk.
  apply strftime_hour_eq in Hk; [done| |]; by apply valid_timestamp.
Qed.

End timeline_facts.

(** * Part IV: the claims *)

Section claims.
Variable md5_hexdigest : string → string.

(** C1: in every detail record that [get_analytics] reports, and in every
    successful [book_ticket] response, the suspicious flag is true exactly
    when the number of stored events with that fingerprint is strictly
    greater than 3; a count of exactly 3 is not suspicious. *)
Theorem suspicious_iff_count_above_3 :
  (∀ store, ∃ body, get_analytics md5_hexdigest store = Ok200 body ∧
     Forall (λ d, booking_count d = length (group store (full_fingerprint d))
                  ∧ (is_suspicious d = true ↔ 3 < booking_count d)
                  ∧ (booking_count d = 3 → is_suspicious d = false))
       (fingerprint_details body))
  ∧ (∀ env (data : gmap string string) store body store',
       book_ticket md5_hexdigest env data store = (Ok200 body, store') →
       ∃ fp, data !! "fingerprint" = Some fp
         ∧ book_count body = length (group store' fp)
         ∧ (book_suspicious body = true ↔ 3 < book_count body)
         ∧ (book_count body = 3 → book_suspicious body = false)).
Proof.
  split.
  - intros store.
    destruct (get_analytics_closed md5_hexdigest store) as (body & Hbody & Hds & _).
    exists body. split; [done|]. rewrite Hds. apply Forall_forall.
    intros d (fp & Hfp & ->)%elem_of_details. simpl.
    split; [done|]. split; [apply Nat.ltb_lt|]. by intros ->.
  - intros env data store body store' Hbook.
    destruct (payload_cases data) as [(n & s & d & fp & Hn & Hs & Hd & Hfp)|(f & Hf & Hnone)].
    + rewrite (book_ticket_complete _ _ _ _ n s d fp) in Hbook by done.
      injection Hbook as <- <-. exists fp. simpl.
      split; [done|]. split; [done|]. split; [apply Nat.ltb_lt|]. by intros ->.
    + by rewrite (book_ticket_incomplete _ _ _ _ f) in Hbook.
Qed.

(** C2 (amended): [book_ticket] answers 400 "Missing required fields" exactly
    when one of the keys [name], [source], [destination], [fingerprint] is
    absent from the payload, whatever the values of the keys that are
    present; and a request answered 400 leaves the collection unchanged. *)
Theorem error400_iff_key_absent env (data : gmap string string) store :
  ((∃ msg, (book_ticket md5_hexdigest env data store).1 = Error400 msg)
   ↔ ∃ field, field ∈ required_fields ∧ data !! field = None)
  ∧ (∀ msg, (book_ticket md5_hexdigest env data store).1 = Error400 msg →
       (book_ticket md5_hexdigest env data store).2 = store).
Proof.
  destruct (payload_cases data) as [(n & s & d & fp & Hn & Hs & Hd & Hfp)|(f & Hf & Hnone)].
  - rewrite (book_ticket_complete _ _ _ _ n s d fp) by done. simpl.
    split; [|done]. split; [by intros [msg ?]|].
    intros (f & Hf & Hnone). unfold required_fields in Hf.
    repeat (apply elem_of_cons in Hf as [->|Hf]; [congruence|]).
    by apply elem_of_nil in Hf.
  - rewrite (book_ticket_incomplete _ _ _ _ f) by done. simpl.
    split; [|done]. split; eauto.
Qed.

(** C3: grouping by fingerprint is a partition of the stored events.  The
    reported groups have pairwise different fingerprints; every event belongs
    to exactly one of them; the events of all groups together, and their
    history entries together, are the stored events, none dropped and none
    duplicated; and [total_bookings] is the number of stored events and the
    sum of the groups' counts. *)
Theorem grouping_is_partition store :
  ∃ body, get_analytics md5_hexdigest store = Ok200 body ∧
    let ds := fingerprint_details body in
    NoDup (full_fingerprint <$> ds)
    ∧ (∀ b, b ∈ store →
         ∃ d, d ∈ ds ∧ full_fingerprint d = fingerprint b
           ∧ ∀ d', d' ∈ ds → full_fingerprint d' = fingerprint b → d' = d)
    ∧ Forall (λ d, booking_count d = length (group store (full_fingerprint d))
                 ∧ bookings d ≡ₚ history_entry_of <$> group store (full_fingerprint d)) ds
    ∧ mjoin ((λ d, group store (full_fingerprint d)) <$> ds) ≡ₚ store
    ∧ mjoin (bookings <$> ds) ≡ₚ history_entry_of <$> store
    ∧ total_bookings (summary body) = length store
    ∧ total_bookings (summary body) = sum_list (booking_count <$> ds).
Proof.
  destruct (get_analytics_closed md5_hexdigest store) as (body & Hbody & Hds & _ & Htotal).
  exists body. split; [done|]. simpl. rewrite Hds, Htotal.
  set (sorted := py_sorted booking_count Nat.ltb true (details_unsorted md5_hexdigest store)).
  assert (sorted ≡ₚ details_unsorted md5_hexdigest store) as Hperm
    by apply py_sorted_perm.
  assert (mjoin ((λ d, group store (full_fingerprint d)) <$> sorted) ≡ₚ store) as Hjoin.
  { rewrite Hperm. unfold details_unsorted.
    rewrite <- list_fmap_compose. apply groups_partition. }
  assert (∀ d, d ∈ sorted →
    bookings d ≡ₚ history_entry_of <$> group store (full_fingerprint d)) as Hhist.
  { intros d (fp & Hfp & ->)%elem_of_details.
    cbn [group_detail bookings full_fingerprint]. by rewrite py_sorted_perm. }
  assert (mjoin (bookings <$> sorted) ≡ₚ history_entry_of <$> store) as Hentries.
  { rewrite (join_fmap_Permutation _ _ _ Hhist).
    transitivity
      (history_entry_of <$> mjoin ((λ d, group store (full_fingerprint d)) <$> sorted));
      [|by rewrite Hjoin].
    generalize sorted. intros l. induction l as [|d ds IH]; [done|].
    rewrite !fmap_cons. simpl. by rewrite fmap_app, IH. }
  repeat split.
  - rewrite Hperm. unfold details_unsorted.
    rewrite <- list_fmap_compose. simpl.
    rewrite list_fmap_id. apply distinct_NoDup.
  - intros b Hb. exists (group_detail md5_hexdigest store (fingerprint b)).
    split; [|split; [done|]].
    + apply elem_of_details. exists (fingerprint b).
      split; [by apply list_elem_of_fmap_2|done].
    + intros d' (fp & Hfp & ->)%elem_of_details. simpl. by intros ->.
  - apply Forall_forall. intros d Hd. split; [|by apply Hhist].
    apply elem_of_details in Hd as (fp & Hfp & ->). done.
  - done.
  - done.
  - apply Permutation_length in Hentries.
    rewrite length_fmap, length_join in Hentries. rewrite <- Hentries.
    rewrite <- list_fmap_compose. f_equal. apply list_fmap_ext.
    intros i d Hd%list_elem_of_lookup_2.
    apply elem_of_details in Hd as (fp & Hfp & ->).
    cbn [group_detail bookings booking_count compose].
    by rewrite length_fmap, py_sorted_length.
Qed.

(** C5: a [book_ticket] request whose payload has the four keys appends
    exactly one document to the collection, nothing else changing, and
    answers with the id of that document and the number of stored documents
    with the same fingerprint counted after the insert: the number before it
    plus one, hence at least 1. *)
Theorem book_ticket_appends_one env (data : gmap string string) store n s d fp :
  data !! "name" = Some n → data !! "source" = Some s →
  data !! "destination" = Some d → data !! "fingerprint" = Some fp →
  ∃ body,
    book_ticket md5_hexdigest env data store
    = (Ok200 body, store ++ [new_booking md5_hexdigest env n s d fp])
    ∧ booking_id body = _id (new_booking md5_hexdigest env n s d fp)
    ∧ book_count body
      = length (group (store ++ [new_booking md5_hexdigest env n s d fp]) fp)
    ∧ book_count body = S (length (group store fp))
    ∧ 1 ≤ book_count body.
Proof.
  intros Hn Hs Hd Hfp.
  rewrite (book_ticket_complete _ _ _ _ n s d fp) by done.
  eexists. split; [done|]. simpl.
  assert (length (group (store ++ [new_booking md5_hexdigest env n s d fp]) fp)
          = S (length (group store fp))) as ->.
  { unfold group. rewrite filter_app, length_app, filter_cons, decide_True by done.
    simpl. lia. }
  repeat split; lia.
Qed.

(** C6: every fingerprint of the collection has a detail record, and the
    history of every detail record lists its group's events and nothing
    else, one entry per event with the event's name, route, timestamp and
    address: the entries follow the events ordered by timestamp from newest
    to oldest, events with equal timestamps staying in the order in which
    they were inserted. *)
Theorem history_newest_first_stable store :
  ∃ body, get_analytics md5_hexdigest store = Ok200 body ∧
    (∀ b, b ∈ store →
       ∃ d, d ∈ fingerprint_details body ∧ full_fingerprint d = fingerprint b) ∧
    Forall (λ d, ∃ events,
        bookings d
        = (λ b, {| entry_name := name b;
                   entry_route := source b +:+ " → " +:+ destination b;
                   entry_timestamp := isoformat (timestamp b);
                   entry_ip := ip_address b |}) <$> events
        ∧ events ≡ₚ filter (λ b, fingerprint b = full_fingerprint d) store
        ∧ StronglySorted (λ a b, datetime_lt (timestamp a) (timestamp b) = false) events
        ∧ ∀ t, filter (λ b, timestamp b = t) events
               = filter (λ b, timestamp b = t)
                   (filter (λ b, fingerprint b = full_fingerprint d) store))
      (fingerprint_details body).
Proof.
  destruct (get_analytics_closed md5_hexdigest store) as (body & Hbody & Hds & _).
  exists body. split; [done|]. rewrite Hds. split.
  - intros b Hb. exists (group_detail md5_hexdigest store (fingerprint b)).
    split; [|done]. apply elem_of_details. exists (fingerprint b).
    split; [|done]. by apply list_elem_of_fmap_2.
  - apply Forall_forall.
    intros d (fp & Hfp & ->)%elem_of_details.
    exists (py_sorted timestamp datetime_lt true (group store fp)).
    cbn [group_detail bookings full_fingerprint].
    split; [done|]. split; [apply py_sorted_perm|].
    split; [apply (py_sorted_desc timestamp datetime_lt)|].
    intros t. apply (py_sorted_stable timestamp datetime_lt).
Qed.

(** C8: the detail list is sorted by count from largest to smallest, and of
    two groups with equal counts the one whose fingerprint occurs first in
    the collection comes first. *)
Theorem details_by_count_descending store :
  ∃ body, get_analytics md5_hexdigest store = Ok200 body ∧
    let ds := fingerprint_details body in
    StronglySorted (λ d1 d2, booking_count d2 ≤ booking_count d1) ds
    ∧ ∀ i j d1 d2, i < j → ds !! i = Some d1 → ds !! j = Some d2 →
        booking_count d1 = booking_count d2 →
        first_seen (full_fingerprint d1) (fingerprint <$> store)
        < first_seen (full_fingerprint d2) (fingerprint <$> store).
Proof.
  destruct (get_analytics_closed md5_hexdigest store) as (body & Hbody & Hds & _).
  exists body. split; [done|]. simpl. rewrite Hds. split.
  - eapply StronglySorted_weaken; [|apply (py_sorted_desc booking_count Nat.ltb)].
    intros a b _ _. unfold desc. by rewrite Nat.ltb_ge.
  - intros i j d1 d2 Hij H1 H2 Hcount.
    pose proof (sublist_of_lookups _ _ _ _ _ Hij H1 H2) as Hsub.
    apply (sublist_filter_mono (λ d, booking_count d = booking_count d1)) in Hsub.
    rewrite (py_sorted_stable booking_count Nat.ltb) in Hsub.
    rewrite !filter_cons, filter_nil in Hsub.
    rewrite decide_True in Hsub by done. rewrite decide_True in Hsub by done.
    apply distinct_order.
    assert ([d1; d2] `sublist_of` details_unsorted md5_hexdigest store) as Hsub'
      by (etransitivity; [exact Hsub|apply sublist_filter]).
    apply (fmap_sublist full_fingerprint) in Hsub'.
    unfold details_unsorted in Hsub'.
    rewrite <- list_fmap_compose in Hsub'. simpl in Hsub'.
    by rewrite list_fmap_id in Hsub'.
Qed.

(** C9: [clear_data] empties the collection whatever it holds, and
    [get_analytics] on the emptied collection reports no bookings, no
    fingerprints, an empty detail list, an empty timeline and the fraud
    rate 0. *)
Theorem clear_then_analytics_empty store :
  clear_data store = (Ok200 (), [])
  ∧ get_analytics md5_hexdigest (clear_data store).2 = Ok200 {|
      summary := {|
        total_bookings := 0;
        unique_fingerprints := 0;
        suspicious_users := 0;
        suspicious_bookings := 0;
        fraud_rate := IntZero
      |};
      fingerprint_details := [];
      timeline := []
    |}.
Proof. split; reflexivity. Qed.

(** C10: every detail record is consistent with itself: its count is the
    length of its history, its history is not empty and [last_booking] is the
    timestamp of the first history entry, and neither [names_used] nor
    [routes] lists a value twice. *)
Theorem detail_record_consistent store :
  ∃ body, get_analytics md5_hexdigest store = Ok200 body ∧
    Forall (λ d,
        booking_count d = length (bookings d)
        ∧ (∃ e rest, bookings d = e :: rest ∧ last_booking d = entry_timestamp e)
        ∧ NoDup (names_used d) ∧ NoDup (routes d))
      (fingerprint_details body).
Proof.
  destruct (get_analytics_closed md5_hexdigest store) as (body & Hbody & Hds & _).
  exists body. split; [done|]. rewrite Hds. apply Forall_forall.
  intros d (fp & Hfp & ->)%elem_of_details.
  cbn [group_detail bookings booking_count last_booking names_used routes].
  split; [by rewrite length_fmap, py_sorted_length|].
  split; [|split; apply list_of_set_NoDup].
  destruct (py_max_sorted_head (group store fp)) as (e & rest & -> & ->).
  { by apply group_nonempty. }
  by exists (history_entry_of e), (history_entry_of <$> rest).
Qed.

(** C7: for events with well-formed timestamps, the timeline lists one point
    per calendar hour, keyed by the timestamp truncated to the hour and
    counting the events of that hour; only hours that hold an event are
    listed, in strictly ascending chronological order; there are at most 24
    points; and an hour that holds an event is left out only when 24 points
    are listed and all of them are later than it. *)
Theorem timeline_last_24_hours store :
  Forall (λ b, valid_datetime (timestamp b)) store →
  ∃ body, get_analytics md5_hexdigest store = Ok200 body ∧
  ∃ hours : list (N * N * N * N),
    timeline body = point_of store <$> hours
    ∧ Forall (λ h, ∃ b, b ∈ store ∧ hour_of (timestamp b) = h
                     ∧ strftime_hour (timestamp b) = time (point_of store h)) hours
    ∧ StronglySorted hour_lt hours
    ∧ length hours ≤ 24
    ∧ ∀ b, b ∈ store →
        hour_of (timestamp b) ∈ hours
        ∨ (length hours = 24 ∧ Forall (hour_lt (hour_of (timestamp b))) hours).
Proof.
  intros Hvalid.
  destruct (get_analytics_closed md5_hexdigest store) as (body & Hbody & _ & Htl & _).
  exists body. split; [done|]. rewrite Htl. unfold last_n.
  set (full := timeline_full store). set (m := length full - 24).
  pose proof (take_drop m full) as Hsplit.
  pose proof (timeline_full_sorted store) as Hsorted.
  fold full in Hsorted. rewrite <- Hsplit in Hsorted.
  destruct (fmap_preimage (point_of store)
              (λ h, ∃ b, b ∈ store ∧ hour_of (timestamp b) = h) (drop m full))
    as (hours & Hhours & Hreps).
  { apply Forall_forall. intros p Hp.
    assert (p ∈ full) as Hfull by (rewrite <- Hsplit, elem_of_app; by right).
    apply timeline_full_points in Hfull as (b & Hb & ->); [|done].
    exists (hour_of (timestamp b)). eauto. }
  rewrite Forall_forall in Hreps.
  assert (length hours = length full - m) as Hlen
    by (by rewrite <- length_drop, Hhours, length_fmap).
  exists hours. split; [done|]. split; [|split; [|split]].
  - apply Forall_forall. intros h Hh.
    destruct (Hreps h Hh) as (b & Hb & <-). exists b. by rewrite strftime_hour_key.
  - apply StronglySorted_app_1_r in Hsorted. rewrite Hhours in Hsorted.
    apply StronglySorted_fmap_inv in Hsorted.
    eapply StronglySorted_weaken; [|exact Hsorted].
    intros h1 h2 Hh1 Hh2.
    destruct (Hreps h1 Hh1) as (b1 & Hb1 & <-), (Hreps h2 Hh2) as (b2 & Hb2 & <-).
    by apply (point_lt store Hvalid).
  - unfold m in Hlen. lia.
  - intros b Hb.
    assert (point_of store (hour_of (timestamp b)) ∈ full) as Hin
      by (apply timeline_full_points; eauto).
    rewrite <- Hsplit, elem_of_app in Hin. destruct Hin as [Htake|Hdrop].
    + right. split.
      * assert (0 < m); [|unfold m in *; lia].
        destruct m; [|lia]. rewrite take_0 in Htake. by apply elem_of_nil in Htake.
      * apply Forall_forall. intros h Hh.
        destruct (Hreps h Hh) as (b' & Hb' & <-).
        apply (point_lt store Hvalid); [done..|].
        apply (StronglySorted_app_1_elem_of _ _ _ _ _ Hsorted Htake).
        rewrite Hhours. by apply list_elem_of_fmap_2.
    + left. rewrite Hhours in Hdrop.
      apply list_elem_of_fmap in Hdrop as (h & Heq & Hh).
      destruct (Hreps h Hh) as (b' & Hb' & <-).
      by rewrite (point_inj store Hvalid b b').
Qed.

End claims.

(** ** The summary and the fraud rate *)

Section summary_facts.
Variable md5_hexdigest : string → string.

Lemma sum_list_filter_le (P : string * nat → Prop) `{!∀ x, Decision (P x)}
    (l : list (string * nat)) :
  sum_list (filter P l).*2 ≤ sum_list l.*2.
Proof.
  induction l as [|x l IH]; [done|].
  rewrite filter_cons. destruct (decide (P x)); rewrite !fmap_cons; simpl; lia.
Qed.


(** X2: the integer part of the fraud rate: the suspicious bookings never exceed
    the total; on an empty collection the rate is the integer 0 and nothing
    is divided; otherwise the rate is computed from the two counts, the
    divisor being positive. *)
Lemma fraud_rate_operands store :
  ∃ body, get_analytics md5_hexdigest store = Ok200 body
  ∧ total_bookings (summary body) = length store
  ∧ suspicious_bookings (summary body) ≤ total_bookings (summary body)
  ∧ (store = [] → fraud_rate (summary body) = IntZero)
  ∧ (store ≠ [] →
       0 < total_bookings (summary body)
       ∧ fraud_rate (summary body)
         = RoundedPercent (suspicious_bookings (summary body))
                          (total_bookings (summary body))).
Proof.
  unfold get_analytics, analytics_of. rewrite details_closed. simpl.
  eexists. split; [done|]. simpl. split; [done|]. split; [|split].
  - rewrite <- (length_fmap fingerprint store), <- Counter_total.
    apply sum_list_filter_le.
  - by intros ->.
  - intros Hne. destruct store; [done|]. simpl. split; [lia|done].
Qed.

End summary_facts.

(** * Part V: the claims on concrete collections *)

(** The scenario of the specification: two fingerprints, [fp-A] with four
    bookings and suspicious, [fp-B] with one and not suspicious. *)
Example scenario_summary :
  ∃ body, get_analytics sample_digest scenario_store = Ok200 body
  ∧ summary body = {|
      total_bookings := 5; unique_fingerprints := 2; suspicious_users := 1;
      suspicious_bookings := 4; fraud_rate := RoundedPercent 4 5 |}
  ∧ (λ d, (full_fingerprint d, booking_count d, is_suspicious d))
      <$> fingerprint_details body
    = [("fp-A", 4, true); ("fp-B", 1, false)]
  ∧ timeline body = [
      {| time := "2025-03-01 10:00"; count := 2 |};
      {| time := "2025-03-01 11:00"; count := 2 |};
      {| time := "2025-03-01 12:00"; count := 1 |} ].
Proof. eexists. split; [vm_compute; reflexivity|]. by vm_compute. Qed.

(** The history of [fp-A]: newest first, the two bookings of 11:05 in the
    order in which they were made. *)
Example scenario_history :
  ∃ body d rest, get_analytics sample_digest scenario_store = Ok200 body
  ∧ fingerprint_details body = d :: rest
  ∧ (λ e, (entry_name e, entry_timestamp e)) <$> bookings d
    = [("Cid", "2025-03-01T11:05:00"); ("Dev", "2025-03-01T11:05:00");
       ("Bob", "2025-03-01T10:20:00"); ("Ann", "2025-03-01T10:00:00")]
  ∧ last_booking d = "2025-03-01T11:05:00".
Proof. do 3 eexists. split; [vm_compute; reflexivity|]. by vm_compute. Qed.

(** Of twenty-six hours that hold a booking the timeline keeps the latest
    twenty-four, the earliest first. *)
Example timeline_keeps_latest_24 :
  ∃ body, get_analytics sample_digest hourly_store = Ok200 body
  ∧ length (timeline body) = 24
  ∧ head (timeline body) = Some {| time := "2025-03-01 02:00"; count := 1 |}
  ∧ last (timeline body) = Some {| time := "2025-03-02 01:00"; count := 1 |}.
Proof. eexists. split; [vm_compute; reflexivity|]. by vm_compute. Qed.

(** Exactly three bookings of one fingerprint are not suspicious. *)
Example three_bookings_not_suspicious :
  (book_ticket sample_digest (env_at (at_time 2025 3 1 9 0 0) "id3")
     (payload "Cid" "Agra" "Delhi" "fp-A") (take 2 scenario_store)).1
  = Ok200 {| booking_id := "id3"; book_count := 3; book_suspicious := false |}.
Proof. by vm_compute. Qed.

(** C2, as stated, fails: a payload whose [name] is the empty string has an
    empty required field, and [book_ticket] accepts it, so an empty field is
    not answered with the 400 error. *)
Lemma empty_field_is_accepted :
  ¬ (∀ md5 env (data : gmap string string) store,
       (∃ msg, (book_ticket md5 env data store).1 = Error400 msg)
       ↔ ∃ field, field ∈ required_fields
           ∧ (data !! field = None ∨ data !! field = Some "")).
Proof.
  intros Hclaim.
  destruct (Hclaim sample_digest (env_at (at_time 2025 3 1 9 0 0) "id1")
              (payload "" "Pune" "Delhi" "fp-A") []) as [_ Hfail].
  destruct Hfail as [msg Hmsg].
  - exists "name". split; [by left|]. right. by vm_compute.
  - vm_compute in Hmsg. discriminate.
Qed.

Lemma book_ticket_appends_one_witness :
  ∃ body,
    book_ticket sample_digest (env_at (at_time 2025 3 1 12 0 0) "id5")
      (payload "Eve" "Pune" "Delhi" "fp-A") (take 4 scenario_store)
    = (Ok200 body,
       take 4 scenario_store
       ++ [new_booking sample_digest (env_at (at_time 2025 3 1 12 0 0) "id5")
             "Eve" "Pune" "Delhi" "fp-A"])
    ∧ booking_id body
      = _id (new_booking sample_digest (env_at (at_time 2025 3 1 12 0 0) "id5")
               "Eve" "Pune" "Delhi" "fp-A")
    ∧ book_count body
      = length (group (take 4 scenario_store
          ++ [new_booking sample_digest (env_at (at_time 2025 3 1 12 0 0) "id5")
                "Eve" "Pune" "Delhi" "fp-A"]) "fp-A")
    ∧ book_count body = S (length (group (take 4 scenario_store) "fp-A"))
    ∧ 1 ≤ book_count body.
Proof.
  apply (book_ticket_appends_one sample_digest (env_at (at_time 2025 3 1 12 0 0) "id5")
           (payload "Eve" "Pune" "Delhi" "fp-A") (take 4 scenario_store));
    reflexivity.
Defined.

Lemma timeline_last_24_hours_witness :
  Forall (λ b, valid_datetime (timestamp b)) scenario_store
  ∧ ∃ body, get_analytics sample_digest scenario_store = Ok200 body ∧
    ∃ hours : list (N * N * N * N),
      timeline body = point_of scenario_store <$> hours
      ∧ Forall (λ h, ∃ b, b ∈ scenario_store ∧ hour_of (timestamp b) = h
                       ∧ strftime_hour (timestamp b) = time (point_of scenario_store h)) hours
      ∧ StronglySorted hour_lt hours
      ∧ length hours ≤ 24
      ∧ ∀ b, b ∈ scenario_store →
          hour_of (timestamp b) ∈ hours
          ∨ (length hours = 24 ∧ Forall (hour_lt (hour_of (timestamp b))) hours).
Proof.
  assert (Forall (λ b, valid_datetime (timestamp b)) scenario_store) as Hvalid.
  { repeat constructor; simpl; lia. }
  split; [exact Hvalid|].
  exact (timeline_last_24_hours sample_digest scenario_store Hvalid).
Defined.

(** The fraud rate of the scenario is [80.0]; a third is [33.33]; the ties
    [12.5] and [37.5] hundredths go to the even neighbour. *)
Example fraud_rate_samples :
  fraud_rate_number (RoundedPercent 4 5) = PyFloat (float_of_nat 80)
  ∧ fraud_rate_number (RoundedPercent 1 3)
    = PyFloat (PrimFloat.div (float_of_nat 3333) (float_of_nat 100))
  ∧ fraud_rate_number (RoundedPercent 1 800)
    = PyFloat (PrimFloat.div (float_of_nat 12) (float_of_nat 100))
  ∧ fraud_rate_number (RoundedPercent 3 800)
    = PyFloat (PrimFloat.div (float_of_nat 38) (float_of_nat 100))
  ∧ fraud_rate_number (RoundedPercent 0 7) = PyFloat (float_of_nat 0)
  ∧ fraud_rate_number (RoundedPercent 7 7) = PyFloat (float_of_nat 100).
Proof. repeat split; vm_compute; reflexivity. Qed.


(** * Part VI: further properties of the routes *)

(** ** The report of one collection *)

Section report_properties.
Variable md5_hexdigest : string → string.

Lemma get_analytics_report store :
  ∃ body, get_analytics md5_hexdigest store = Ok200 body
  ∧ fingerprint_details body = details_of md5_hexdigest store
  ∧ timeline body = last_n 24 (timeline_full store)
  ∧ total_bookings (summary body) = length store
  ∧ unique_fingerprints (summary body) = length (Counter (fingerprint <$> store))
  ∧ suspicious_users (summary body)
    = length (filter (λ item, 3 < item.2) (Counter (fingerprint <$> store)))
  ∧ suspicious_bookings (summary body)
    = sum_list (filter (λ item, 3 < item.2) (Counter (fingerprint <$> store))).*2.
Proof.
  unfold get_analytics, analytics_of. rewrite details_closed. simpl.
  eexists. split; [done|]. by simpl.
Qed.

Lemma details_of_elem_of store d :
  d ∈ details_of md5_hexdigest store
  ↔ ∃ fp, fp ∈ fingerprint <$> store ∧ d = group_detail md5_hexdigest store fp.
Proof. apply elem_of_details. Qed.

Lemma details_of_perm store :
  details_of md5_hexdigest store ≡ₚ details_unsorted md5_hexdigest store.
Proof. apply py_sorted_perm. Qed.

Lemma filter_fmap_comm {A B} (f : A → B) (P : B → Prop) `{!∀ b, Decision (P b)}
    (l : list A) :
  filter P (f <$> l) = f <$> filter (P ∘ f) l.
Proof.
  induction l as [|x l IH]; [done|].
  rewrite fmap_cons, !filter_cons, IH. simpl.
  by destruct (decide (P (f x))).
Qed.

Lemma sum_list_fmap_perm {A} (f : A → nat) (l1 l2 : list A) :
  l1 ≡ₚ l2 → sum_list (f <$> l1) = sum_list (f <$> l2).
Proof. intros Hperm. by rewrite Hperm. Qed.

(** The suspicious items of the counter are the suspicious groups. *)
Lemma suspicious_items store :
  filter (λ d, is_suspicious d = true) (details_unsorted md5_hexdigest store)
  = group_detail md5_hexdigest store
    <$> (filter (λ item, 3 < item.2) (Counter (fingerprint <$> store))).*1.
Proof.
  unfold details_unsorted. rewrite Counter_distinct, !filter_fmap_comm.
  rewrite <- !list_fmap_compose.
  change (group_detail md5_hexdigest store ∘ fst
          ∘ (λ k, (k, occurrences k (fingerprint <$> store))))
    with (group_detail md5_hexdigest store).
  f_equal. apply filter_ext_in. intros fp _. simpl.
  rewrite occurrences_fingerprint. apply Nat.ltb_lt.
Qed.

(** X1: the summary agrees with the detail list.  [unique_fingerprints] is
    the number of detail records and of distinct fingerprints in the
    collection, [suspicious_users] is the number of records flagged
    suspicious, and [suspicious_bookings] is the sum of their counts. *)
Theorem summary_agrees_with_details store :
  ∃ body, get_analytics md5_hexdigest store = Ok200 body ∧
    let ds := fingerprint_details body in
    unique_fingerprints (summary body) = length ds
    ∧ unique_fingerprints (summary body) = length (distinct (fingerprint <$> store))
    ∧ suspicious_users (summary body)
      = length (filter (λ d, is_suspicious d = true) ds)
    ∧ suspicious_bookings (summary body)
      = sum_list (booking_count <$> filter (λ d, is_suspicious d = true) ds).
Proof.
  destruct (get_analytics_report store)
    as (body & Hbody & Hds & _ & _ & Huniq & Husers & Hsum).
  exists body. split; [done|]. simpl. rewrite Hds, Huniq, Husers, Hsum.
  pose proof (details_of_perm store) as Hperm.
  assert (filter (λ d, is_suspicious d = true) (details_of md5_hexdigest store)
          ≡ₚ filter (λ d, is_suspicious d = true) (details_unsorted md5_hexdigest store))
    as Hsusp by (by rewrite Hperm).
  repeat split.
  - rewrite (Permutation_length Hperm). unfold details_unsorted.
    by rewrite length_fmap, Counter_distinct, length_fmap.
  - by rewrite Counter_distinct, length_fmap.
  - rewrite (Permutation_length Hsusp), suspicious_items. by rewrite !length_fmap.
  - rewrite (sum_list_fmap_perm _ _ _ Hsusp), suspicious_items.
    rewrite <- !list_fmap_compose. f_equal. apply list_fmap_ext.
    intros i [fp n] Hitem%list_elem_of_lookup_2. simpl.
    apply list_elem_of_filter in Hitem as [_ Hitem].
    rewrite Counter_distinct in Hitem.
    apply list_elem_of_fmap in Hitem as (k & Heq & _). simplify_eq.
    by rewrite occurrences_fingerprint.
Qed.

(** X3: [names_used] and [routes] of a detail record list exactly the names,
    and exactly the routes, of the stored events of that fingerprint. *)
Theorem names_and_routes_of_group store :
  ∃ body, get_analytics md5_hexdigest store = Ok200 body ∧
    Forall (λ d,
        (∀ n, n ∈ names_used d
              ↔ ∃ b, b ∈ store ∧ fingerprint b = full_fingerprint d ∧ name b = n)
        ∧ (∀ r, r ∈ routes d
                ↔ ∃ b, b ∈ store ∧ fingerprint b = full_fingerprint d
                       ∧ source b +:+ " → " +:+ destination b = r))
      (fingerprint_details body).
Proof.
  destruct (get_analytics_report store) as (body & Hbody & Hds & _).
  exists body. split; [done|]. rewrite Hds. apply Forall_forall.
  intros d (fp & Hfp & ->)%details_of_elem_of.
  cbn [group_detail names_used routes full_fingerprint].
  split; intros x; rewrite list_of_set_elem_of, list_elem_of_fmap; unfold group.
  - split.
    + intros (b & -> & [Hb Hin]%list_elem_of_filter). eauto.
    + intros (b & Hin & Hb & <-). exists b. by rewrite list_elem_of_filter.
  - split.
    + intros (b & -> & [Hb Hin]%list_elem_of_filter). eauto.
    + intros (b & Hin & Hb & <-). exists b. by rewrite list_elem_of_filter.
Qed.

(** X4: [last_booking] of a detail record is the timestamp of an event of
    the group, and no event of the group is later. *)
Theorem last_booking_is_latest store :
  ∃ body, get_analytics md5_hexdigest store = Ok200 body ∧
    Forall (λ d, ∃ e,
        e ∈ store ∧ fingerprint e = full_fingerprint d
        ∧ last_booking d = isoformat (timestamp e)
        ∧ ∀ b, b ∈ store → fingerprint b = full_fingerprint d →
               datetime_lt (timestamp e) (timestamp b) = false)
      (fingerprint_details body).
Proof.
  destruct (get_analytics_report store) as (body & Hbody & Hds & _).
  exists body. split; [done|]. rewrite Hds. apply Forall_forall.
  intros d (fp & Hfp & ->)%details_of_elem_of.
  cbn [group_detail last_booking full_fingerprint].
  destruct (py_max_is_Some (timestamp <$> group store fp)) as [m Hm].
  { intros Hnil%fmap_nil_inv. by apply (group_nonempty store fp). }
  rewrite Hm. simpl. apply py_max_spec in Hm as [Hin Hmax].
  apply list_elem_of_fmap in Hin as (e & -> & [He Hin]%list_elem_of_filter).
  exists e. repeat split; try done.
  intros b Hb Hfp'. apply Hmax, list_elem_of_fmap_2. by apply list_elem_of_filter.
Qed.

(** X5: the suspicious records come first in the detail list: no record
    that is flagged stands behind one that is not. *)
Theorem suspicious_details_first store :
  ∃ body, get_analytics md5_hexdigest store = Ok200 body ∧
    ∀ i j d1 d2, i < j →
      fingerprint_details body !! i = Some d1 →
      fingerprint_details body !! j = Some d2 →
      is_suspicious d2 = true → is_suspicious d1 = true.
Proof.
  destruct (get_analytics_report store) as (body & Hbody & Hds & _).
  exists body. split; [done|]. rewrite Hds.
  intros i j d1 d2 Hij H1 H2 Hsusp.
  pose proof (py_sorted_desc booking_count Nat.ltb
                (details_unsorted md5_hexdigest store)) as Hsorted.
  fold (details_of md5_hexdigest store) in Hsorted.
  pose proof (list_elem_of_lookup_2 _ _ _ H1) as (fp1 & _ & ->)%details_of_elem_of.
  pose proof (list_elem_of_lookup_2 _ _ _ H2) as (fp2 & _ & ->)%details_of_elem_of.
  rewrite <- (take_drop_middle _ _ _ H1) in Hsorted, H2.
  apply StronglySorted_app_1_r, StronglySorted_inv in Hsorted as [_ Hall].
  rewrite Forall_forall in Hall.
  assert (group_detail md5_hexdigest store fp2
          ∈ drop (S i) (details_of md5_hexdigest store)) as Hin.
  { apply list_elem_of_lookup. exists (j - S i).
    rewrite lookup_app_r, length_take in H2 by (rewrite length_take; lia).
    apply lookup_lt_Some in H1 as Hi.
    replace (j - i `min` length (details_of md5_hexdigest store)) with (S (j - S i))
      in H2 by lia. done. }
  apply Hall in Hin. unfold desc in Hin. apply Nat.ltb_ge in Hin.
  cbn [group_detail is_suspicious booking_count] in *.
  apply Nat.ltb_lt in Hsusp. apply Nat.ltb_lt. lia.
Qed.

End report_properties.

(** ** The timeline of any collection *)

Section timeline_properties.
Variable md5_hexdigest : string → string.

Lemma occurrences_elem_of k l : k ∈ l → 1 ≤ occurrences k l.
Proof.
  intros Hk. unfold occurrences.
  assert (k ∈ filter (λ y, y = k) l) as Hin by by apply list_elem_of_filter.
  destruct (filter (λ y, y = k) l); [by apply elem_of_nil in Hin|simpl; lia].
Qed.

Lemma timeline_full_perm store :
  timeline_full store
  ≡ₚ (λ k, {| time := k; count := occurrences k (hour_keys store) |})
     <$> distinct (hour_keys store).
Proof.
  unfold timeline_full. rewrite py_sorted_perm, timeline_data_Counter.
  fold (hour_keys store). by rewrite Counter_distinct, <- list_fmap_compose.
Qed.

Lemma timeline_full_total store :
  sum_list (count <$> timeline_full store) = length store.
Proof.
  unfold timeline_full.
  rewrite (sum_list_fmap_perm _ _ _ (py_sorted_perm time String.ltb false _)).
  rewrite <- list_fmap_compose.
  change (count ∘ (λ item : string * nat, {| time := item.1; count := item.2 |}))
    with (@snd string nat).
  by rewrite timeline_data_Counter, Counter_total, length_fmap.
Qed.

(** X6: whatever the timestamps, the timeline points have pairwise different
    keys in strictly ascending string order; each point counts the events
    that have its key, at least one; the counts add up to at most
    [total_bookings], and to exactly [total_bookings] when the events have at
    most 24 different keys. *)
Theorem timeline_counts store :
  ∃ body, get_analytics md5_hexdigest store = Ok200 body ∧
    let tl := timeline body in
    StronglySorted (λ p q, String.ltb (time p) (time q) = true) tl
    ∧ Forall (λ p, 1 ≤ count p
                 ∧ count p
                   = length (filter (λ b, strftime_hour (timestamp b) = time p) store)) tl
    ∧ sum_list (count <$> tl) ≤ total_bookings (summary body)
    ∧ (length (distinct (hour_keys store)) ≤ 24 →
       sum_list (count <$> tl) = total_bookings (summary body)).
Proof.
  destruct (get_analytics_report md5_hexdigest store)
    as (body & Hbody & _ & Htl & Htotal & _).
  exists body. split; [done|]. simpl. rewrite Htl, Htotal. unfold last_n.
  set (full := timeline_full store). set (m := length full - 24).
  pose proof (take_drop m full) as Hsplit.
  pose proof (timeline_full_sorted store) as Hsorted. fold full in Hsorted.
  pose proof (timeline_full_total store) as Hsum. fold full in Hsum.
  repeat split.
  - rewrite <- Hsplit in Hsorted. by apply StronglySorted_app_1_r in Hsorted.
  - apply Forall_forall. intros p Hp.
    assert (p ∈ full) as Hfull by (rewrite <- Hsplit, elem_of_app; by right).
    unfold full in Hfull. rewrite timeline_full_perm in Hfull.
    apply list_elem_of_fmap in Hfull as (k & -> & Hk).
    apply (proj1 (distinct_elem_of _ _)) in Hk. cbn [time count]. split; [by apply occurrences_elem_of|].
    unfold hour_keys. by rewrite occurrences_fmap.
  - rewrite <- Hsum. rewrite <- Hsplit at 2. rewrite fmap_app, sum_list_with_app. lia.
  - intros Hfew. assert (m = 0) as ->; [|by rewrite drop_0].
    unfold m, full.
    rewrite (Permutation_length (timeline_full_perm store)), length_fmap. lia.
Qed.

End timeline_properties.

(** ** A booking followed by a report *)

Section booking_properties.
Variable md5_hexdigest : string → string.

Lemma group_app l1 l2 fp : group (l1 ++ l2) fp = group l1 fp ++ group l2 fp.
Proof. apply filter_app. Qed.

Lemma group_snoc_other store b fp :
  fingerprint b ≠ fp → group (store ++ [b]) fp = group store fp.
Proof.
  intros Hne. rewrite group_app. unfold group at 2.
  rewrite filter_cons, decide_False by done. apply app_nil_r.
Qed.

Lemma group_snoc_same store b fp :
  fingerprint b = fp → group (store ++ [b]) fp = group store fp ++ [b].
Proof.
  intros Heq. rewrite group_app. unfold group at 2.
  by rewrite filter_cons, decide_True by done.
Qed.

(** The collection after a [/book] request. *)
Lemma book_ticket_store env (data : gmap string string) store :
  ((book_ticket md5_hexdigest env data store).2 = store
   ∧ ∃ field, field ∈ required_fields ∧ data !! field = None)
  ∨ ∃ n s d fp,
      data !! "name" = Some n ∧ data !! "source" = Some s
      ∧ data !! "destination" = Some d ∧ data !! "fingerprint" = Some fp
      ∧ (book_ticket md5_hexdigest env data store).2
        = store ++ [new_booking md5_hexdigest env n s d fp].
Proof.
  destruct (payload_cases data) as [(n & s & d & fp & Hn & Hs & Hd & Hfp)|(f & Hf & Hnone)].
  - right. exists n, s, d, fp.
    by rewrite (book_ticket_complete _ _ _ _ n s d fp).
  - left. rewrite (book_ticket_incomplete _ _ _ _ f) by done. eauto.
Qed.

(** X7: right after a successful booking the report agrees with the
    response: the collection holds one event more, and the detail record of
    the booked fingerprint shows the count and the flag the response gave.
    The booking is flagged exactly when at least three events of that
    fingerprint were stored before it. *)
Theorem report_agrees_with_booking env (data : gmap string string) store n s d fp :
  data !! "name" = Some n → data !! "source" = Some s →
  data !! "destination" = Some d → data !! "fingerprint" = Some fp →
  ∃ body store' report dt,
    book_ticket md5_hexdigest env data store = (Ok200 body, store')
    ∧ get_analytics md5_hexdigest store' = Ok200 report
    ∧ total_bookings (summary report) = S (length store)
    ∧ dt ∈ fingerprint_details report
    ∧ full_fingerprint dt = fp
    ∧ booking_count dt = book_count body
    ∧ is_suspicious dt = book_suspicious body
    ∧ (book_suspicious body = true ↔ 3 ≤ length (group store fp)).
Proof.
  intros Hn Hs Hd Hfp.
  rewrite (book_ticket_complete _ _ _ _ n s d fp) by done.
  set (b := new_booking md5_hexdigest env n s d fp).
  destruct (get_analytics_report md5_hexdigest (store ++ [b]))
    as (report & Hreport & Hds & _ & Htotal & _).
  eexists _, _, report, (group_detail md5_hexdigest (store ++ [b]) fp).
  split; [done|]. split; [done|]. split.
  { rewrite Htotal, length_app. simpl. lia. }
  split.
  { rewrite Hds. apply details_of_elem_of. exists fp. split; [|done].
    rewrite fmap_app, elem_of_app. right. by left. }
  repeat split; try done; cbn [book_suspicious];
    rewrite (group_snoc_same store b fp), length_app by done; simpl.
  - intros ?%Nat.ltb_lt. lia.
  - intros ?. apply Nat.ltb_lt. lia.
Qed.

(** X8: a [/book] request, accepted or not, leaves the detail records of
    all other fingerprints exactly as they were. *)
Theorem booking_keeps_other_groups env (data : gmap string string) store :
  ∃ before after,
    get_analytics md5_hexdigest store = Ok200 before
    ∧ get_analytics md5_hexdigest (book_ticket md5_hexdigest env data store).2
      = Ok200 after
    ∧ ∀ dt, dt ∈ fingerprint_details before →
        data !! "fingerprint" ≠ Some (full_fingerprint dt) →
        dt ∈ fingerprint_details after.
Proof.
  destruct (get_analytics_report md5_hexdigest store) as (before & Hbefore & Hds & _).
  destruct (get_analytics_report md5_hexdigest
              (book_ticket md5_hexdigest env data store).2)
    as (after & Hafter & Hds' & _).
  exists before, after. split; [done|]. split; [done|].
  rewrite Hds, Hds'. intros dt (fp' & Hfp' & ->)%details_of_elem_of Hother.
  cbn [group_detail full_fingerprint] in Hother.
  destruct (book_ticket_store env data store)
    as [[-> _]|(n & s & d & fp & _ & _ & _ & Hfp & ->)].
  { apply details_of_elem_of. eauto. }
  apply details_of_elem_of. exists fp'. split.
  - rewrite fmap_app, elem_of_app. by left.
  - unfold group_detail. rewrite !group_snoc_other; [done|].
    simpl. congruence.
Qed.

(** X9: further bookings never lower a count and never withdraw a flag:
    after any [/book] request every fingerprint reported before is still
    reported, with a count at least as large, and is still flagged if it was
    flagged before. *)
Theorem suspicion_is_kept env (data : gmap string string) store :
  ∃ before after,
    get_analytics md5_hexdigest store = Ok200 before
    ∧ get_analytics md5_hexdigest (book_ticket md5_hexdigest env data store).2
      = Ok200 after
    ∧ Forall (λ dt, ∃ dt',
          dt' ∈ fingerprint_details after
          ∧ full_fingerprint dt' = full_fingerprint dt
          ∧ booking_count dt ≤ booking_count dt'
          ∧ (is_suspicious dt = true → is_suspicious dt' = true))
        (fingerprint_details before).
Proof.
  destruct (get_analytics_report md5_hexdigest store) as (before & Hbefore & Hds & _).
  destruct (get_analytics_report md5_hexdigest
              (book_ticket md5_hexdigest env data store).2)
    as (after & Hafter & Hds' & _).
  exists before, after. split; [done|]. split; [done|].
  rewrite Hds, Hds'. apply Forall_forall.
  intros dt (fp' & Hfp' & ->)%details_of_elem_of.
  assert (∃ extra, (book_ticket md5_hexdigest env data store).2 = store ++ extra)
    as [extra ->].
  { destruct (book_ticket_store env data store)
      as [[-> _]|(n & s & d & fp & _ & _ & _ & _ & ->)]; [exists []|eauto].
    by rewrite app_nil_r. }
  exists (group_detail md5_hexdigest (store ++ extra) fp'). split.
  { apply details_of_elem_of. exists fp'. split; [|done].
    rewrite fmap_app, elem_of_app. by left. }
  cbn [group_detail full_fingerprint booking_count is_suspicious].
  rewrite group_app, length_app. repeat split; [lia|].
  intros ?%Nat.ltb_lt. apply Nat.ltb_lt. lia.
Qed.

(** X10: a [/book] request never removes or changes a stored document and
    adds at most one; when it is answered 400 it adds none, and when it is
    answered 200 the payload had the four required keys and exactly one
    document was added, built from the values under those keys. *)
Theorem book_ticket_only_appends env (data : gmap string string) store :
  store `prefix_of` (book_ticket md5_hexdigest env data store).2
  ∧ length (book_ticket md5_hexdigest env data store).2 ≤ S (length store)
  ∧ (∀ msg, (book_ticket md5_hexdigest env data store).1 = Error400 msg →
       (book_ticket md5_hexdigest env data store).2 = store)
  ∧ (∀ body, (book_ticket md5_hexdigest env data store).1 = Ok200 body →
       Forall (λ field, is_Some (data !! field)) required_fields
       ∧ ∃ b, (book_ticket md5_hexdigest env data store).2 = store ++ [b]
           ∧ data !! "name" = Some (name b)
           ∧ data !! "source" = Some (source b)
           ∧ data !! "destination" = Some (destination b)
           ∧ data !! "fingerprint" = Some (fingerprint b)).
Proof.
  destruct (payload_cases data) as [(n & s & d & fp & Hn & Hs & Hd & Hfp)|(f & Hf & Hnone)].
  - rewrite (book_ticket_complete _ _ _ _ n s d fp) by done. simpl.
    split; [by apply prefix_app_r|]. split; [rewrite length_app; simpl; lia|].
    split; [done|]. intros body _. split.
    + unfold required_fields. repeat constructor; by eexists.
    + by eexists.
  - rewrite (book_ticket_incomplete _ _ _ _ f) by done. simpl.
    split; [done|]. split; [lia|]. split; [done|]. by intros body.
Qed.

End booking_properties.

(** ** The report does not depend on the order of the documents *)

Section order_independence.
Variable md5_hexdigest : string → string.

Lemma get_analytics_explicit store :
  get_analytics md5_hexdigest store = Ok200 {|
    summary := {|
      total_bookings := length store;
      unique_fingerprints := length (Counter (fingerprint <$> store));
      suspicious_users :=
        length (filter (λ item, 3 < item.2) (Counter (fingerprint <$> store)));
      suspicious_bookings :=
        sum_list (filter (λ item, 3 < item.2) (Counter (fingerprint <$> store))).*2;
      fraud_rate :=
        if 0 <? length store
        then RoundedPercent
               (sum_list (filter (λ item, 3 < item.2) (Counter (fingerprint <$> store))).*2)
               (length store)
        else IntZero
    |};
    fingerprint_details := details_of md5_hexdigest store;
    timeline := last_n 24 (timeline_full store)
  |}.
Proof. unfold get_analytics, analytics_of. by rewrite details_closed. Qed.

Lemma occurrences_perm k l1 l2 : l1 ≡ₚ l2 → occurrences k l1 = occurrences k l2.
Proof. intros Hperm. unfold occurrences. by rewrite Hperm. Qed.

Lemma distinct_perm l1 l2 : l1 ≡ₚ l2 → distinct l1 ≡ₚ distinct l2.
Proof.
  intros Hperm. apply NoDup_Permutation; [apply distinct_NoDup..|].
  intros k. by rewrite !distinct_elem_of, Hperm.
Qed.

Lemma Counter_perm l1 l2 : l1 ≡ₚ l2 → Counter l1 ≡ₚ Counter l2.
Proof.
  intros Hperm. rewrite !Counter_distinct, (distinct_perm l1 l2 Hperm).
  assert ((λ k, (k, occurrences k l1)) <$> distinct l2
          = (λ k, (k, occurrences k l2)) <$> distinct l2) as ->; [|done].
  apply list_fmap_ext. intros i k _. by rewrite (occurrences_perm k l1 l2).
Qed.

Lemma py_max_perm l1 l2 : l1 ≡ₚ l2 → py_max l1 = py_max l2.
Proof.
  intros Hperm. destruct (py_max l1) as [m1|] eqn:H1, (py_max l2) as [m2|] eqn:H2.
  - apply py_max_spec in H1 as [Hin1 Hmax1], H2 as [Hin2 Hmax2]. f_equal.
    apply (lt_total (lt:=datetime_lt)).
    + apply Hmax1. by rewrite Hperm.
    + apply Hmax2. by rewrite <- Hperm.
  - destruct l2; [|done]. apply Permutation_nil_r in Hperm. by subst.
  - destruct l1; [|done]. symmetry in Hperm. apply Permutation_nil_r in Hperm. by subst.
  - done.
Qed.

Lemma list_of_set_perm l1 l2 : l1 ≡ₚ l2 → list_of_set l1 ≡ₚ list_of_set l2.
Proof.
  intros Hperm. apply NoDup_Permutation; [apply list_of_set_NoDup..|].
  intros x. by rewrite !list_of_set_elem_of, Hperm.
Qed.

Lemma same_detail_perm store1 store2 fp :
  store1 ≡ₚ store2 →
  same_detail (group_detail md5_hexdigest store1 fp)
              (group_detail md5_hexdigest store2 fp).
Proof.
  intros Hperm. unfold same_detail, group_detail.
  cbn [fingerprint_id full_fingerprint booking_count is_suspicious names_used
       routes last_booking bookings].
  assert (group store1 fp ≡ₚ group store2 fp) as Hgroup
    by (unfold group; by rewrite Hperm).
  rewrite (Permutation_length Hgroup).
  rewrite (py_max_perm (timestamp <$> group store1 fp) (timestamp <$> group store2 fp))
    by (by rewrite Hgroup).
  repeat split.
  - apply list_of_set_perm. by rewrite Hgroup.
  - apply list_of_set_perm. by rewrite Hgroup.
  - by rewrite !py_sorted_perm, Hgroup.
Qed.

Lemma timeline_full_order_free store1 store2 :
  store1 ≡ₚ store2 → timeline_full store1 = timeline_full store2.
Proof.
  intros Hperm.
  apply (StronglySorted_unique_strong
           (λ p q, String.ltb (time p) (time q) = true));
    [|apply timeline_full_sorted..|].
  - intros p q _ _ Hpq Hqp.
    by rewrite (lt_asym String.ltb _ _ Hpq) in Hqp.
  - rewrite !timeline_full_perm.
    assert (hour_keys store1 ≡ₚ hour_keys store2) as Hkeys
      by (unfold hour_keys; by rewrite Hperm).
    rewrite (distinct_perm _ _ Hkeys).
    assert ((λ k, {| time := k; count := occurrences k (hour_keys store1) |})
              <$> distinct (hour_keys store2)
            = (λ k, {| time := k; count := occurrences k (hour_keys store2) |})
              <$> distinct (hour_keys store2)) as ->; [|done].
    apply list_fmap_ext. intros i k _. by rewrite (occurrences_perm k _ _ Hkeys).
Qed.

(** X11: two collections that hold the same documents in different orders
    give the same summary and the same timeline, and detail records for the
    same fingerprints; the two records of a fingerprint agree on every field,
    the lists of names, of routes and of history entries up to the order of
    their elements. *)
Theorem report_independent_of_order store1 store2 :
  store1 ≡ₚ store2 →
  ∃ r1 r2,
    get_analytics md5_hexdigest store1 = Ok200 r1
    ∧ get_analytics md5_hexdigest store2 = Ok200 r2
    ∧ summary r1 = summary r2
    ∧ timeline r1 = timeline r2
    ∧ full_fingerprint <$> fingerprint_details r1
      ≡ₚ full_fingerprint <$> fingerprint_details r2
    ∧ ∀ d1 d2, d1 ∈ fingerprint_details r1 → d2 ∈ fingerprint_details r2 →
        full_fingerprint d1 = full_fingerprint d2 → same_detail d1 d2.
Proof.
  intros Hperm. rewrite !get_analytics_explicit. eexists _, _.
  split; [done|]. split; [done|]. cbn [summary timeline fingerprint_details].
  assert (Counter (fingerprint <$> store1) ≡ₚ Counter (fingerprint <$> store2))
    as Hcounter by (apply Counter_perm; by rewrite Hperm).
  assert (filter (λ item, 3 < item.2) (Counter (fingerprint <$> store1))
          ≡ₚ filter (λ item, 3 < item.2) (Counter (fingerprint <$> store2)))
    as Hsusp by (by rewrite Hcounter).
  split; [|split; [|split]].
  - rewrite (Permutation_length Hperm), (Permutation_length Hcounter),
      (Permutation_length Hsusp).
    by rewrite (sum_list_fmap_perm snd _ _ Hsusp).
  - by rewrite (timeline_full_order_free store1 store2).
  - rewrite !details_of_perm. unfold details_unsorted.
    rewrite <- !list_fmap_compose.
    assert (∀ store, full_fingerprint ∘ group_detail md5_hexdigest store
                       <$> distinct (fingerprint <$> store)
                     = distinct (fingerprint <$> store)) as Hid.
    { intros store. rewrite <- (list_fmap_id (distinct (fingerprint <$> store))) at 2.
      by apply list_fmap_ext. }
    rewrite !Hid. apply distinct_perm. by rewrite Hperm.
  - intros d1 d2 (fp1 & _ & ->)%details_of_elem_of (fp2 & _ & ->)%details_of_elem_of.
    cbn [group_detail full_fingerprint]. intros ->.
    by apply same_detail_perm.
Qed.

End order_independence.

(** ** Sequences of requests *)

Section request_sequences.
Variable md5_hexdigest : string → string.

(** What one request does to the collection. *)
Lemma serve_document store r :
  serve md5_hexdigest store r
  = match r with
    | PostClear => []
    | _ => store ++ option_list (document_of md5_hexdigest r)
    end.
Proof.
  destruct r as [env data| |]; simpl; [|by rewrite app_nil_r|done].
  destruct (payload_cases data) as [(n & s & d & fp & Hn & Hs & Hd & Hfp)|(f & Hf & Hnone)].
  - rewrite (book_ticket_complete _ _ _ _ n s d fp) by done.
    by rewrite Hn, Hs, Hd, Hfp.
  - rewrite (book_ticket_incomplete _ _ _ _ f) by done. simpl.
    destruct (data !! "name") eqn:Hn, (data !! "source") eqn:Hs,
      (data !! "destination") eqn:Hd, (data !! "fingerprint") eqn:Hfp;
      simpl; try by rewrite app_nil_r.
    unfold required_fields in Hf.
    repeat (apply elem_of_cons in Hf as [->|Hf]; [congruence|]).
    by apply elem_of_nil in Hf.
Qed.

(** A property of the stored documents that every accepted booking
    establishes holds of the collection after any requests. *)
Lemma run_invariant (P : booking → Prop) reqs store :
  Forall (λ r, ∀ b, document_of md5_hexdigest r = Some b → P b) reqs →
  Forall P store → Forall P (run md5_hexdigest reqs store).
Proof.
  revert store. induction reqs as [|r reqs IH]; intros store Hreqs Hstore; [done|].
  apply Forall_cons in Hreqs as [Hr Hreqs]. simpl. apply IH; [done|].
  rewrite serve_document. destruct r; [|by rewrite app_nil_r|done].
  apply Forall_app. split; [done|].
  destruct (document_of _ _) as [b|]; [|done]. repeat constructor. by apply Hr.
Qed.

(** X12: the collection after any sequence of requests holds the documents
    of the accepted bookings made since the last clear, in the order of the
    requests, after the documents it held at the start if nothing was
    cleared; rejected bookings and report requests leave no trace. *)
Theorem collection_after_requests reqs store :
  run md5_hexdigest reqs store
  = match after_last_clear reqs with
    | Some later => omap (document_of md5_hexdigest) later
    | None => store ++ omap (document_of md5_hexdigest) reqs
    end.
Proof.
  revert store. induction reqs as [|r reqs IH]; intros store; simpl.
  { by rewrite app_nil_r. }
  rewrite IH, serve_document.
  destruct (after_last_clear reqs) as [later|]; [done|].
  destruct r as [env data| |]; [|by rewrite app_nil_r|done].
  cbn [omap list_omap].
  destruct (document_of md5_hexdigest (PostBook env data)) as [b|]; simpl;
    [by rewrite <- app_assoc|by rewrite app_nil_r].
Qed.

(** X13: when the clock shows a well-formed time at every booking, every
    document of the collection built from nothing carries a well-formed
    timestamp. *)
Theorem stored_timestamps_valid reqs :
  Forall clock_valid reqs →
  Forall (λ b, valid_datetime (timestamp b)) (run md5_hexdigest reqs []).
Proof.
  intros Hclock. apply run_invariant; [|done].
  eapply Forall_impl; [exact Hclock|].
  intros [env data| |] Hvalid b Hdoc; simpl in *; [|done..].
  destruct (data !! "name"), (data !! "source"), (data !! "destination"),
    (data !! "fingerprint"); by simplify_eq/=.
Qed.

Lemma prefix8_length s : String.length (prefix8 s) ≤ 8.
Proof.
  unfold prefix8. generalize 8. intros n. revert s.
  induction n as [|n IH]; intros [|c s]; simpl; try lia.
  specialize (IH s). lia.
Qed.

(** X14: in the report of a collection built by requests, the
    [fingerprint_id] of a detail record has at most 8 characters and is the
    [fingerprint_hash] stored with every document of that fingerprint. *)
Theorem fingerprint_id_is_stored_hash reqs :
  ∃ body, get_analytics md5_hexdigest (run md5_hexdigest reqs []) = Ok200 body ∧
    Forall (λ d,
        String.length (fingerprint_id d) ≤ 8
        ∧ ∀ b, b ∈ run md5_hexdigest reqs [] →
               fingerprint b = full_fingerprint d →
               fingerprint_hash b = fingerprint_id d)
      (fingerprint_details body).
Proof.
  destruct (get_analytics_report md5_hexdigest (run md5_hexdigest reqs []))
    as (body & Hbody & Hds & _).
  exists body. split; [done|]. rewrite Hds. apply Forall_forall.
  intros d (fp & _ & ->)%details_of_elem_of.
  cbn [group_detail fingerprint_id full_fingerprint].
  split; [apply prefix8_length|]. intros b Hb <-.
  assert (Forall (λ b, fingerprint_hash b = prefix8 (md5_hexdigest (fingerprint b)))
            (run md5_hexdigest reqs [])) as Hinv.
  { apply run_invariant; [|done]. apply Forall_forall.
    intros [env data| |] _ b' Hdoc; simpl in *; [|done..].
    destruct (data !! "name"), (data !! "source"), (data !! "destination"),
      (data !! "fingerprint"); by simplify_eq/=. }
  rewrite Forall_forall in Hinv. by apply Hinv.
Qed.

End request_sequences.

(** ** Timestamps as strings *)

Lemma isoformat_compare a b :
  valid_datetime a → valid_datetime b →
  String.compare (isoformat a) (isoformat b) = datetime_compare a b.
Proof.
  unfold valid_datetime, isoformat, datetime_compare. intros Ha Hb.
  repeat (rewrite zero_padded_compare by (simpl; lia); rewrite ?string_compare_cons).
  do 6 f_equal.
  destruct (N.eqb_spec (microsecond a) 0) as [Ea|Ea],
    (N.eqb_spec (microsecond b) 0) as [Eb|Eb].
  - by rewrite Ea, Eb.
  - rewrite Ea. simpl. by destruct (microsecond b).
  - rewrite Eb. simpl. by destruct (microsecond a).
  - rewrite string_compare_cons, zero_padded_compare by (simpl; lia).
    simpl. by destruct (microsecond a ?= microsecond b)%N.
Qed.

Lemma isoformat_ltb a b :
  valid_datetime a → valid_datetime b →
  String.ltb (isoformat a) (isoformat b) = datetime_lt a b.
Proof.
  intros Ha Hb. unfold String.ltb, datetime_lt. by rewrite isoformat_compare.
Qed.

Section string_properties.
Variable md5_hexdigest : string → string.

(** X15: for timestamps with a four-digit year, two events get the same
    timeline key exactly when they fall into the same calendar hour, and the
    keys are ordered as strings exactly as the hours are ordered in time. *)
Theorem hour_key_is_faithful t1 t2 :
  valid_datetime t1 → valid_datetime t2 →
  (strftime_hour t1 = strftime_hour t2 ↔ hour_of t1 = hour_of t2)
  ∧ (String.ltb (strftime_hour t1) (strftime_hour t2) = true
     ↔ hour_lt (hour_of t1) (hour_of t2)).
Proof.
  intros H1 H2. split; [by apply strftime_hour_eq|by apply strftime_hour_lt].
Qed.

(** X16: for well-formed timestamps, the timestamps of every history, read as
    strings, never increase from one entry to the next, and [last_booking]
    is not smaller, as a string, than any of them. *)
Theorem history_strings_descending store :
  Forall (λ b, valid_datetime (timestamp b)) store →
  ∃ body, get_analytics md5_hexdigest store = Ok200 body ∧
    Forall (λ d,
        StronglySorted
          (λ e1 e2, String.ltb (entry_timestamp e1) (entry_timestamp e2) = false)
          (bookings d)
        ∧ Forall (λ e, String.ltb (last_booking d) (entry_timestamp e) = false)
            (bookings d))
      (fingerprint_details body).
Proof.
  intros Hvalid. rewrite Forall_forall in Hvalid.
  destruct (get_analytics_report md5_hexdigest store) as (body & Hbody & Hds & _).
  exists body. split; [done|]. rewrite Hds. apply Forall_forall.
  intros d (fp & Hfp & ->)%details_of_elem_of.
  cbn [group_detail bookings last_booking].
  assert (∀ b, b ∈ py_sorted timestamp datetime_lt true (group store fp) →
               b ∈ group store fp ∧ valid_datetime (timestamp b)) as Hin.
  { intros b Hb%py_sorted_elem_of. split; [done|].
    apply list_elem_of_filter in Hb as [_ Hb]. by apply Hvalid. }
  split.
  - apply (StronglySorted_fmap history_entry_of
             (λ a b, valid_datetime (timestamp a) ∧ valid_datetime (timestamp b)
                     ∧ datetime_lt (timestamp a) (timestamp b) = false)).
    + intros a b (Ha & Hb & Hab). cbn [history_entry_of entry_timestamp].
      by rewrite isoformat_ltb.
    + eapply StronglySorted_weaken;
        [|apply (py_sorted_desc timestamp datetime_lt)].
      intros a b [_ Ha]%Hin [_ Hb]%Hin Hab. done.
  - destruct (py_max_is_Some (timestamp <$> group store fp)) as [m Hm].
    { intros Hnil%fmap_nil_inv. by apply (group_nonempty store fp). }
    rewrite Hm. simpl. apply py_max_spec in Hm as [Hm Hmax].
    apply list_elem_of_fmap in Hm as (e & -> & He).
    apply Forall_forall. intros x (b & -> & Hb)%list_elem_of_fmap.
    apply Hin in Hb as [Hb Hvb]. cbn [history_entry_of entry_timestamp].
    rewrite isoformat_ltb; [|apply Hvalid|done].
    + by apply Hmax, list_elem_of_fmap_2.
    + by apply list_elem_of_filter in He as [_ He].
Qed.

End string_properties.

(** ** The further properties on concrete collections *)

(** After the sample requests the collection holds the one booking accepted
    since the clear. *)
Example sample_requests_collection :
  run sample_digest sample_requests []
  = [new_booking sample_digest (env_at (at_time 2025 3 1 12 0 0) "id4")
       "Dev" "Agra" "Surat" "fp-A"].
Proof. by vm_compute. Qed.

Lemma report_agrees_with_booking_witness :
  ∃ body store' report dt,
    book_ticket sample_digest (env_at (at_time 2025 3 1 12 0 0) "id5")
      (payload "Eve" "Pune" "Delhi" "fp-A") (take 4 scenario_store)
    = (Ok200 body, store')
    ∧ get_analytics sample_digest store' = Ok200 report
    ∧ total_bookings (summary report) = S (length (take 4 scenario_store))
    ∧ dt ∈ fingerprint_details report
    ∧ full_fingerprint dt = "fp-A"
    ∧ booking_count dt = book_count body
    ∧ is_suspicious dt = book_suspicious body
    ∧ (book_suspicious body = true
       ↔ 3 ≤ length (group (take 4 scenario_store) "fp-A")).
Proof.
  apply (report_agrees_with_booking sample_digest
           (env_at (at_time 2025 3 1 12 0 0) "id5")
           (payload "Eve" "Pune" "Delhi" "fp-A") (take 4 scenario_store)
           "Eve" "Pune" "Delhi" "fp-A");
    reflexivity.
Defined.

Lemma report_independent_of_order_witness :
  scenario_store ≡ₚ reverse scenario_store
  ∧ ∃ r1 r2,
      get_analytics sample_digest scenario_store = Ok200 r1
      ∧ get_analytics sample_digest (reverse scenario_store) = Ok200 r2
      ∧ summary r1 = summary r2
      ∧ timeline r1 = timeline r2
      ∧ full_fingerprint <$> fingerprint_details r1
        ≡ₚ full_fingerprint <$> fingerprint_details r2
      ∧ ∀ d1 d2, d1 ∈ fingerprint_details r1 → d2 ∈ fingerprint_details r2 →
          full_fingerprint d1 = full_fingerprint d2 → same_detail d1 d2.
Proof.
  assert (scenario_store ≡ₚ reverse scenario_store) as Hperm
    by (symmetry; apply reverse_Permutation).
  split; [exact Hperm|].
  exact (report_independent_of_order sample_digest _ _ Hperm).
Defined.

Lemma stored_timestamps_valid_witness :
  Forall clock_valid sample_requests
  ∧ Forall (λ b, valid_datetime (timestamp b)) (run sample_digest sample_requests []).
Proof.
  assert (Forall clock_valid sample_requests) as Hclock.
  { repeat constructor; simpl; lia. }
  split; [exact Hclock|].
  exact (stored_timestamps_valid sample_digest sample_requests Hclock).
Defined.

Lemma hour_key_is_faithful_witness :
  (strftime_hour (at_time 2025 3 1 23 59 59) = strftime_hour (at_time 2025 3 2 0 0 0)
   ↔ hour_of (at_time 2025 3 1 23 59 59) = hour_of (at_time 2025 3 2 0 0 0))
  ∧ (String.ltb (strftime_hour (at_time 2025 3 1 23 59 59))
                (strftime_hour (at_time 2025 3 2 0 0 0)) = true
     ↔ hour_lt (hour_of (at_time 2025 3 1 23 59 59))
               (hour_of (at_time 2025 3 2 0 0 0))).
Proof.
  apply hour_key_is_faithful; unfold valid_datetime; simpl; lia.
Defined.

Lemma history_strings_descending_witness :
  Forall (λ b, valid_datetime (timestamp b)) scenario_store
  ∧ ∃ body, get_analytics sample_digest scenario_store = Ok200 body ∧
      Forall (λ d,
          StronglySorted
            (λ e1 e2, String.ltb (entry_timestamp e1) (entry_timestamp e2) = false)
            (bookings d)
          ∧ Forall (λ e, String.ltb (last_booking d) (entry_timestamp e) = false)
              (bookings d))
        (fingerprint_details body).
Proof.
  assert (Forall (λ b, valid_datetime (timestamp b)) scenario_store) as Hvalid.
  { repeat constructor; simpl; lia. }
  split; [exact Hvalid|].
  exact (history_strings_descending sample_digest scenario_store Hvalid).
Defined.
